(** * yojimbo_message.h: messages, block messages and the message factory

    A shallow embedding of [yojimbo::Message], [yojimbo::BlockMessage],
    [yojimbo::MessageFactory] and of the factory helper macros
    (YOJIMBO_MESSAGE_FACTORY_START / YOJIMBO_DECLARE_MESSAGE_TYPE /
    YOJIMBO_MESSAGE_FACTORY_FINISH), followed by the properties of the
    reference counting, block ownership and factory error contracts.

    Conventions.
    - A nullable C++ pointer is an [option] of a non-null address; an
      [Allocator &] is a bare address, it cannot be null.
    - [int] is a 32-bit signed integer held in [Z]; arithmetic that leaves
      its range is undefined behaviour and is reported as [Undefined].
    - The bit-fields [m_id : 16], [m_type : 15], [m_blockMessage : 1] are
      unsigned: a store keeps the value modulo two to the width.
    - [assert] depends on the build: with assertions compiled in a false
      condition stops the program ([AssertionFailed]); with NDEBUG the
      line is empty. *)

From Stdlib Require Import ZArith Lia.
From stdpp Require Import base option list gmap sorting.

Local Open Scope Z_scope.

(** ** Build configuration *)

Record BuildConfig := {
  assertions : bool;                   (* true unless NDEBUG is defined *)
  YOJIMBO_DEBUG_MESSAGE_LEAKS : bool   (* the leak audit of the factory *)
}.

Definition debug_build : BuildConfig :=
  {| assertions := true; YOJIMBO_DEBUG_MESSAGE_LEAKS := true |}.

Definition release_build : BuildConfig :=
  {| assertions := false; YOJIMBO_DEBUG_MESSAGE_LEAKS := false |}.

(** ** Outcomes of a call *)

Inductive Outcome (A : Type) : Type :=
| Ok (a : A)
| AssertionFailed
| Undefined.

Arguments Ok {A} a.
Arguments AssertionFailed {A}.
Arguments Undefined {A}.

#[global] Instance Outcome_ret : MRet Outcome := fun A a => Ok a.

#[global] Instance Outcome_bind : MBind Outcome := fun A B k c =>
  match c with
  | Ok a => k a
  | AssertionFailed => AssertionFailed
  | Undefined => Undefined
  end.

(** [assert( c )] *)
Definition assert_ (cfg : BuildConfig) (c : bool) : Outcome unit :=
  if assertions cfg then (if c then Ok tt else AssertionFailed) else Ok tt.

(** ** Machine integers *)

Definition INT_MAX : Z := 2 ^ 31 - 1.
Definition INT_MIN : Z := - 2 ^ 31.

(** Store into an unsigned bit-field of [w] bits. *)
Definition bitfield (w : Z) (v : Z) : Z := v mod 2 ^ w.

(** Addresses.  [None] is the null pointer. *)
Abbreviation addr := positive (only parsing).
Abbreviation NULL := None (only parsing).

(** ** class Message *)

Module Message.

Record t := mk {
  m_refCount : Z;       (* int m_refCount *)
  m_id : Z;             (* uint32_t m_id : 16 *)
  m_type : Z;           (* uint32_t m_type : 15 *)
  m_blockMessage : Z    (* uint32_t m_blockMessage : 1 *)
}.

(** [Message( int blockMessage = 0 )] *)
Definition ctor (blockMessage : Z) : t :=
  {| m_refCount := 1;
     m_id := bitfield 16 0;
     m_type := bitfield 15 0;
     m_blockMessage := bitfield 1 blockMessage |}.

(** [void SetId( uint16_t id )] *)
Definition SetId (id : Z) (m : t) : t :=
  {| m_refCount := m_refCount m;
     m_id := bitfield 16 id;
     m_type := m_type m;
     m_blockMessage := m_blockMessage m |}.

Definition GetId (m : t) : Z := m_id m.
Definition GetType (m : t) : Z := m_type m.
Definition GetRefCount (m : t) : Z := m_refCount m.

(** [bool IsBlockMessage() const { return m_blockMessage; }] *)
Definition IsBlockMessage (m : t) : bool := negb (m_blockMessage m =? 0).

(** [void SetType( int type ) { m_type = type; }] *)
Definition SetType (type : Z) (m : t) : t :=
  {| m_refCount := m_refCount m;
     m_id := m_id m;
     m_type := bitfield 15 type;
     m_blockMessage := m_blockMessage m |}.

Definition set_refCount (r : Z) (m : t) : t :=
  {| m_refCount := r;
     m_id := m_id m;
     m_type := m_type m;
     m_blockMessage := m_blockMessage m |}.

(** [void AddRef() { m_refCount++; }] *)
Definition AddRef (m : t) : Outcome t :=
  if m_refCount m <? INT_MAX
  then Ok (set_refCount (m_refCount m + 1) m)
  else Undefined.

(** [void Release() { assert( m_refCount > 0 ); m_refCount--; }] *)
Definition Release (cfg : BuildConfig) (m : t) : Outcome t :=
  _ ← assert_ cfg (0 <? m_refCount m);
  if INT_MIN <? m_refCount m
  then Ok (set_refCount (m_refCount m - 1) m)
  else Undefined.

(** [virtual ~Message() { assert( m_refCount == 0 ); }] *)
Definition dtor (cfg : BuildConfig) (m : t) : Outcome unit :=
  assert_ cfg (m_refCount m =? 0).

End Message.

(** ** class BlockMessage : public Message *)

Module BlockMessage.

Record t := mk {
  base : Message.t;
  m_allocator : option addr;    (* Allocator * m_allocator *)
  m_blockData : option addr;    (* uint8_t * m_blockData *)
  m_blockSize : Z               (* int m_blockSize *)
}.

(** [explicit BlockMessage() : Message( 1 ), m_allocator(NULL),
    m_blockData(NULL), m_blockSize(0) {}] *)
Definition ctor : t :=
  {| base := Message.ctor 1;
     m_allocator := NULL;
     m_blockData := NULL;
     m_blockSize := 0 |}.

Definition set_base (m : Message.t) (b : t) : t :=
  {| base := m;
     m_allocator := m_allocator b;
     m_blockData := m_blockData b;
     m_blockSize := m_blockSize b |}.

(** [void AttachBlock( Allocator & allocator, uint8_t * blockData,
    int blockSize )] *)
Definition AttachBlock (cfg : BuildConfig) (allocator : addr)
    (blockData : option addr) (blockSize : Z) (b : t) : Outcome t :=
  _ ← assert_ cfg (bool_decide (is_Some blockData));
  _ ← assert_ cfg (0 <? blockSize);
  _ ← assert_ cfg (negb (bool_decide (is_Some (m_blockData b))));
  Ok {| base := base b;
        m_allocator := Some allocator;
        m_blockData := blockData;
        m_blockSize := blockSize |}.

(** [void DetachBlock()] *)
Definition DetachBlock (b : t) : t :=
  {| base := base b;
     m_allocator := NULL;
     m_blockData := NULL;
     m_blockSize := 0 |}.

Definition GetAllocator (b : t) : option addr := m_allocator b.
Definition GetBlockData (b : t) : option addr := m_blockData b.
Definition GetBlockSize (b : t) : Z := m_blockSize b.

(** The members inherited from Message. *)
Definition IsBlockMessage (b : t) : bool := Message.IsBlockMessage (base b).
Definition GetRefCount (b : t) : Z := Message.GetRefCount (base b).
Definition GetType (b : t) : Z := Message.GetType (base b).
Definition GetId (b : t) : Z := Message.GetId (base b).
Definition SetId (id : Z) (b : t) : t := set_base (Message.SetId id (base b)) b.
Definition SetType (type : Z) (b : t) : t :=
  set_base (Message.SetType type (base b)) b.
Definition AddRef (b : t) : Outcome t :=
  m ← Message.AddRef (base b); Ok (set_base m b).
Definition Release (cfg : BuildConfig) (b : t) : Outcome t :=
  m ← Message.Release cfg (base b); Ok (set_base m b).

(** [template <typename Stream> bool Serialize( Stream & stream )
    { (void) stream; return true; }]
    The call gets the message and the stream by reference; the result is
    the returned flag with both as the call leaves them. *)
Definition Serialize {Stream : Type} (b : t) (stream : Stream)
    : bool * t * Stream :=
  (true, b, stream).

End BlockMessage.

(** ** Objects, the store of live messages and the allocator *)

(** A message object is of a class derived from Message or of one derived
    from BlockMessage (or BlockMessage itself).  The fields a user class
    adds are its own and are not part of this header. *)
Inductive Object :=
| PlainObject (m : Message.t)
| BlockObject (b : BlockMessage.t).

Definition message_of (o : Object) : Message.t :=
  match o with
  | PlainObject m => m
  | BlockObject b => BlockMessage.base b
  end.

Definition update_message (m : Message.t) (o : Object) : Object :=
  match o with
  | PlainObject _ => PlainObject m
  | BlockObject b => BlockObject (BlockMessage.set_base m b)
  end.

(** The classes a factory can be asked to instantiate in
    YOJIMBO_DECLARE_MESSAGE_TYPE. *)
Inductive MessageClass :=
| DerivedFromMessage
| DerivedFromBlockMessage.

(** Default construction of an object of the class. *)
Definition construct (c : MessageClass) : Object :=
  match c with
  | DerivedFromMessage => PlainObject (Message.ctor 0)
  | DerivedFromBlockMessage => BlockObject BlockMessage.ctor
  end.

(** The calls made on allocators, as seen from outside. *)
Inductive AllocatorCall :=
| CallAllocate (allocator : addr) (result : option addr)
| CallFree (allocator : addr) (p : addr).

(** Modelled from the spec: yojimbo_allocator.h is not part of this header.
    The allocator is an external collaborator with the capability
    allocate(size) -> buffer, free(buffer).  Its answers to the coming
    Allocate calls are given in advance by [answers] (a null answer, or no
    answer left, is a failed allocation); every call is appended to
    [calls], latest first. *)
Record World := {
  messages : gmap addr Object;        (* the live message objects *)
  answers : list (option addr);
  calls : list AllocatorCall
}.

Definition set_messages (h : gmap addr Object) (w : World) : World :=
  {| messages := h; answers := answers w; calls := calls w |}.

Definition record_call (c : AllocatorCall) (w : World) : World :=
  {| messages := messages w; answers := answers w; calls := c :: calls w |}.

(** [allocator.Allocate( bytes, ... )] *)
Definition Allocate (allocator : addr) (w : World) : option addr * World :=
  match answers w with
  | [] => (NULL, record_call (CallAllocate allocator NULL) w)
  | r :: rest =>
      (r, {| messages := messages w;
             answers := rest;
             calls := CallAllocate allocator r :: calls w |})
  end.

(** Modelled from the spec: the macro YOJIMBO_NEW( a, T ) of
    yojimbo_allocator.h, a placement new on [a.Allocate( sizeof(T) )]: null
    when the allocation fails, else the address of a default constructed
    object. *)
Definition YOJIMBO_NEW (allocator : addr) (c : MessageClass) (w : World)
    : option addr * World :=
  let '(r, w1) := Allocate allocator w in
  match r with
  | None => (NULL, w1)
  | Some p => (Some p, set_messages (<[p := construct c]> (messages w1)) w1)
  end.

(** Modelled from the spec: the macro YOJIMBO_FREE( a, p ) of
    yojimbo_allocator.h: if [p] is not null, [a.Free( p )] and [p = NULL].
    Returns the new value of the pointer variable. *)
Definition YOJIMBO_FREE (allocator : addr) (p : option addr) (w : World)
    : option addr * World :=
  match p with
  | Some d => (NULL, record_call (CallFree allocator d) w)
  | None => (NULL, w)
  end.

(** [~BlockMessage()] *)
Definition BlockMessage_dtor (b : BlockMessage.t) (w : World)
    : BlockMessage.t * World :=
  match BlockMessage.m_allocator b with
  | Some a =>
      let '(data, w1) := YOJIMBO_FREE a (BlockMessage.m_blockData b) w in
      ({| BlockMessage.base := BlockMessage.base b;
          BlockMessage.m_allocator := NULL;
          BlockMessage.m_blockData := data;
          BlockMessage.m_blockSize := 0 |}, w1)
  | None => (b, w)
  end.

(** The virtual destructor call [p->~Message()]: the destructor of the
    dynamic class runs first, then the one of Message. *)
Definition destroy (cfg : BuildConfig) (o : Object) (w : World)
    : Outcome World :=
  match o with
  | PlainObject m => _ ← Message.dtor cfg m; Ok w
  | BlockObject b =>
      let '(b1, w1) := BlockMessage_dtor b w in
      _ ← Message.dtor cfg (BlockMessage.base b1); Ok w1
  end.

(** Modelled from the spec: the macro YOJIMBO_DELETE( a, T, p ) of
    yojimbo_allocator.h: if [p] is not null, run the destructor, hand the
    memory back with [a.Free( p )] and null the pointer variable. *)
Definition YOJIMBO_DELETE (cfg : BuildConfig) (allocator : addr)
    (p : option addr) (w : World) : Outcome World :=
  match p with
  | None => Ok w
  | Some q =>
      match messages w !! q with
      | None => Undefined
      | Some o =>
          w1 ← destroy cfg o w;
          Ok (record_call (CallFree allocator q)
                (set_messages (delete q (messages w1)) w1))
      end
  end.

(** A member function of Message called through a pointer:
    [message->method()].  The pointer must point to a live message. *)
Definition invoke (message : addr) (method : Message.t → Outcome Message.t)
    (w : World) : Outcome World :=
  match messages w !! message with
  | None => Undefined
  | Some o =>
      m ← method (message_of o);
      Ok (set_messages (<[message := update_message m o]> (messages w)) w)
  end.

(** A member function of BlockMessage called through a pointer. *)
Definition invoke_block (message : addr)
    (method : BlockMessage.t → Outcome BlockMessage.t) (w : World)
    : Outcome World :=
  match messages w !! message with
  | Some (BlockObject b) =>
      b1 ← method b;
      Ok (set_messages (<[message := BlockObject b1]> (messages w)) w)
  | _ => Undefined
  end.

(** ** class MessageFactory *)

Definition MESSAGE_FACTORY_ERROR_NONE : Z := 0.
Definition MESSAGE_FACTORY_ERROR_FAILED_TO_ALLOCATE_MESSAGE : Z := 1.

(** The dynamic class of a factory: MessageFactory itself, or a class
    written with YOJIMBO_MESSAGE_FACTORY_START( factory_class,
    base_factory_class, num_message_types ), one
    YOJIMBO_DECLARE_MESSAGE_TYPE( message_type, message_class ) per element
    of [cases], and YOJIMBO_MESSAGE_FACTORY_FINISH(). *)
Inductive FactoryClass :=
| BaseFactory
| MacroFactory (base_factory_class : FactoryClass)
               (cases : list (Z * MessageClass)).

(** [switch ( type ) { case message_type: ... default: ... }] *)
Fixpoint switch (type : Z) (cases : list (Z * MessageClass))
    : option (Z * MessageClass) :=
  match cases with
  | [] => None
  | (message_type, message_class) :: rest =>
      if type =? message_type
      then Some (message_type, message_class)
      else switch type rest
  end.

Module MessageFactory.

Record t := mk {
  allocated_messages : gmap addr Z;   (* std::map<void*,int> *)
  m_allocator : option addr;          (* Allocator * m_allocator *)
  m_numTypes : Z;                     (* int m_numTypes *)
  m_error : Z                         (* int m_error *)
}.

(** [MessageFactory( Allocator & allocator, int numTypes )] *)
Definition ctor (allocator : addr) (numTypes : Z) : t :=
  {| allocated_messages := ∅;
     m_allocator := Some allocator;
     m_numTypes := numTypes;
     m_error := MESSAGE_FACTORY_ERROR_NONE |}.

Definition set_error (e : Z) (f : t) : t :=
  {| allocated_messages := allocated_messages f;
     m_allocator := m_allocator f;
     m_numTypes := m_numTypes f;
     m_error := e |}.

Definition set_allocated_messages (a : gmap addr Z) (f : t) : t :=
  {| allocated_messages := a;
     m_allocator := m_allocator f;
     m_numTypes := m_numTypes f;
     m_error := m_error f |}.

Definition GetNumTypes (f : t) : Z := m_numTypes f.
Definition GetError (f : t) : Z := m_error f.

(** [void ClearError()] *)
Definition ClearError (f : t) : t := set_error MESSAGE_FACTORY_ERROR_NONE f.

(** [Allocator & GetAllocator() { assert( m_allocator );
    return *m_allocator; }] *)
Definition GetAllocator (cfg : BuildConfig) (f : t) : Outcome addr :=
  _ ← assert_ cfg (bool_decide (is_Some (m_allocator f)));
  match m_allocator f with
  | Some a => Ok a
  | None => Undefined
  end.

(** [void SetMessageType( Message * message, int type )
    { message->SetType( type ); }] *)
Definition SetMessageType (message : addr) (type : Z) (w : World)
    : Outcome World :=
  invoke message (fun m => Ok (Message.SetType type m)) w.

(** [virtual Message * CreateInternal( int type )]: the base version
    [{ (void) type; return NULL; }] and the override written by the
    macros. *)
Fixpoint CreateInternal (cfg : BuildConfig) (C : FactoryClass) (f : t)
    (type : Z) (w : World) : Outcome (option addr * World) :=
  match C with
  | BaseFactory => Ok (NULL, w)
  | MacroFactory base_factory_class cases =>
      r ← CreateInternal cfg base_factory_class f type w;
      match r with
      | (Some message, w1) => Ok (Some message, w1)
      | (None, w1) =>
          allocator ← GetAllocator cfg f;
          match switch type cases with
          | Some (message_type, message_class) =>
              match YOJIMBO_NEW allocator message_class w1 with
              | (None, w2) => Ok (NULL, w2)
              | (Some message, w2) =>
                  w3 ← SetMessageType message message_type w2;
                  Ok (Some message, w3)
              end
          | None => Ok (NULL, w1)
          end
      end
  end.

(** [Message * Create( int type )] *)
Definition Create (cfg : BuildConfig) (C : FactoryClass) (type : Z)
    (s : t * World) : Outcome (option addr * (t * World)) :=
  let '(f, w) := s in
  _ ← assert_ cfg (0 <=? type);
  _ ← assert_ cfg (type <? m_numTypes f);
  r ← CreateInternal cfg C f type w;
  match r with
  | (None, w1) =>
      Ok (NULL,
          (set_error MESSAGE_FACTORY_ERROR_FAILED_TO_ALLOCATE_MESSAGE f, w1))
  | (Some message, w1) =>
      if YOJIMBO_DEBUG_MESSAGE_LEAKS cfg
      then
        let f1 :=
          set_allocated_messages (<[message := 1]> (allocated_messages f)) f
        in
        _ ← assert_ cfg
              (bool_decide (is_Some (allocated_messages f1 !! message)));
        Ok (Some message, (f1, w1))
      else Ok (Some message, (f, w1))
  end.

(** [void AddRef( Message * message )] *)
Definition AddRef (cfg : BuildConfig) (message : option addr)
    (s : t * World) : Outcome (t * World) :=
  let '(f, w) := s in
  _ ← assert_ cfg (bool_decide (is_Some message));
  match message with
  | None => Ok (f, w)
  | Some p =>
      w1 ← invoke p Message.AddRef w;
      Ok (f, w1)
  end.

(** The message count of a pointer, [message->GetRefCount()]. *)
Definition refCount_at (message : addr) (w : World) : Outcome Z :=
  match messages w !! message with
  | None => Undefined
  | Some o => Ok (Message.GetRefCount (message_of o))
  end.

(** [void Release( Message * message )] *)
Definition Release (cfg : BuildConfig) (message : option addr)
    (s : t * World) : Outcome (t * World) :=
  let '(f, w) := s in
  _ ← assert_ cfg (bool_decide (is_Some message));
  match message with
  | None => Ok (f, w)
  | Some p =>
      w1 ← invoke p (Message.Release cfg) w;
      n ← refCount_at p w1;
      if n =? 0
      then
        f1 ← (if YOJIMBO_DEBUG_MESSAGE_LEAKS cfg
              then
                _ ← assert_ cfg
                      (bool_decide (is_Some (allocated_messages f !! p)));
                Ok (set_allocated_messages
                      (delete p (allocated_messages f)) f)
              else Ok f);
        _ ← assert_ cfg (bool_decide (is_Some (m_allocator f1)));
        match m_allocator f1 with
        | None => Undefined
        | Some a =>
            w2 ← YOJIMBO_DELETE cfg a (Some p) w1;
            Ok (f1, w2)
        end
      else Ok (f, w1)
  end.

(** A factory between its constructor and its destructor: the allocator
    pointer is set by the constructor and nulled by the destructor only. *)
Definition constructed (f : t) : Prop := is_Some (m_allocator f).

End MessageFactory.

(** The calls a holder makes on a factory. *)
Inductive FactoryCall :=
| DoCreate (type : Z)
| DoAddRef (message : option addr)
| DoRelease (message : option addr)
| DoClearError.

Definition step (cfg : BuildConfig) (C : FactoryClass) (c : FactoryCall)
    (s : MessageFactory.t * World) : Outcome (MessageFactory.t * World) :=
  match c with
  | DoCreate type =>
      r ← MessageFactory.Create cfg C type s; Ok r.2
  | DoAddRef message => MessageFactory.AddRef cfg message s
  | DoRelease message => MessageFactory.Release cfg message s
  | DoClearError => Ok (MessageFactory.ClearError s.1, s.2)
  end.

Fixpoint run (cfg : BuildConfig) (C : FactoryClass) (cs : list FactoryCall)
    (s : MessageFactory.t * World) : Outcome (MessageFactory.t * World) :=
  match cs with
  | [] => Ok s
  | c :: rest => s1 ← step cfg C c s; run cfg C rest s1
  end.

(** ** The virtual serialize functions of BlockMessage *)

Section VirtualSerializeFunctions.

(** The stream classes of yojimbo_stream.h, which this header only names. *)
Variables ReadStream WriteStream MeasureStream : Type.

(** Modelled from the spec: the macro YOJIMBO_VIRTUAL_SERIALIZE_FUNCTIONS()
    of yojimbo_serialize.h, which is not part of this header: the three
    virtual functions are the one serialize template, specialised to the
    read, the write and the measure stream. *)
Definition SerializeInternal_read (b : BlockMessage.t) (stream : ReadStream)
    : bool * BlockMessage.t * ReadStream :=
  BlockMessage.Serialize b stream.

Definition SerializeInternal_write (b : BlockMessage.t)
    (stream : WriteStream) : bool * BlockMessage.t * WriteStream :=
  BlockMessage.Serialize b stream.

Definition SerializeInternal_measure (b : BlockMessage.t)
    (stream : MeasureStream) : bool * BlockMessage.t * MeasureStream :=
  BlockMessage.Serialize b stream.

End VirtualSerializeFunctions.

(** ** The life of a block message

    [BlockState cfg g b]: [b] is a BlockMessage as its constructor and a
    sequence of calls of its member functions leave it; [g] remembers the
    arguments of the last AttachBlock when no DetachBlock followed it, and
    is [None] when no block is attached. *)

Definition Block : Type := addr * option addr * Z.

Inductive BlockState (cfg : BuildConfig)
    : option Block → BlockMessage.t → Prop :=
| BS_ctor :
    BlockState cfg None BlockMessage.ctor
| BS_SetId g b id :
    BlockState cfg g b → BlockState cfg g (BlockMessage.SetId id b)
| BS_SetType g b type :
    BlockState cfg g b → BlockState cfg g (BlockMessage.SetType type b)
| BS_AddRef g b b1 :
    BlockState cfg g b → BlockMessage.AddRef b = Ok b1 → BlockState cfg g b1
| BS_Release g b b1 :
    BlockState cfg g b → BlockMessage.Release cfg b = Ok b1 →
    BlockState cfg g b1
| BS_AttachBlock g b a d s b1 :
    BlockState cfg g b → BlockMessage.AttachBlock cfg a d s b = Ok b1 →
    BlockState cfg (Some (a, d, s)) b1
| BS_DetachBlock g b :
    BlockState cfg g b → BlockState cfg None (BlockMessage.DetachBlock b).

(** One run of the destructor body on a message and the world. *)
Definition dtor_step (s : BlockMessage.t * World) : BlockMessage.t * World :=
  BlockMessage_dtor s.1 s.2.

(** The Free calls among the calls on allocators. *)
Definition frees (cs : list AllocatorCall) : list (addr * addr) :=
  omap (fun c => match c with
                 | CallFree a p => Some (a, p)
                 | CallAllocate _ _ => None
                 end) cs.

(** ** What Create promises *)

(** The result of [Create( type )]: a message of count 1 and of the type
    asked for, or null with the error level set. *)
Definition Create_post (type : Z)
    (r : Outcome (option addr * (MessageFactory.t * World))) : Prop :=
  match r with
  | Ok (Some message, (f1, w1)) =>
      ∃ o, messages w1 !! message = Some o
           ∧ Message.GetRefCount (message_of o) = 1
           ∧ Message.GetType (message_of o) = type
  | Ok (None, (f1, w1)) =>
      MessageFactory.GetError f1
      = MESSAGE_FACTORY_ERROR_FAILED_TO_ALLOCATE_MESSAGE
  | _ => False
  end.

(** The message class a factory class declares for a type, through the
    chain of its base classes. *)
Fixpoint declared (C : FactoryClass) (type : Z) : option MessageClass :=
  match C with
  | BaseFactory => None
  | MacroFactory base_factory_class cases =>
      match declared base_factory_class type with
      | Some c => Some c
      | None => snd <$> switch type cases
      end
  end.

#[global] Instance FactoryCall_eq_dec : EqDecision FactoryCall.
Proof. solve_decision. Defined.

(** The number of calls [c] in a sequence of calls. *)
Definition count_calls (c : FactoryCall) (cs : list FactoryCall) : Z :=
  Z.of_nat (length (filter (fun x => x = c) cs)).

(** What a message returned by CreateInternal looks like, and what the
    call leaves in place. *)
Definition created (type : Z) (w : World) (r : option addr) (w1 : World)
    : Prop :=
  (∀ q, is_Some (messages w !! q) → is_Some (messages w1 !! q))
  ∧ match r with
    | Some p =>
        ∃ o, messages w1 !! p = Some o
             ∧ Message.m_refCount (message_of o) = 1
             ∧ Message.m_type (message_of o) = bitfield 15 type
    | None => True
    end.

(** A null handle is accepted: the call returns and nothing has changed. *)
Definition null_safe (cfg : BuildConfig) (s : MessageFactory.t * World)
    : Prop :=
  MessageFactory.AddRef cfg NULL s = Ok s
  ∧ MessageFactory.Release cfg NULL s = Ok s.

(** The message store after a returning [Release( message )] on a live
    message [o] at [p]. *)
Definition released (p : addr) (o : Object) (h : gmap addr Object)
    : gmap addr Object :=
  let n := Message.m_refCount (message_of o) - 1 in
  if n =? 0
  then delete p h
  else <[p := update_message (Message.set_refCount n (message_of o)) o]> h.

(** ** The destructor of MessageFactory *)








(** ** Invariants of the message store *)


(** Every live message is held: its count is at least 1, and an int. *)
Definition counts_in_range (w : World) : Prop :=
  ∀ p o, messages w !! p = Some o →
         1 ≤ Message.m_refCount (message_of o) ≤ INT_MAX.

(** The leak audit knows exactly the live messages. *)
Definition audit_exact (f : MessageFactory.t) (w : World) : Prop :=
  dom (MessageFactory.allocated_messages f) = dom (messages w).

(** The object [Create( type )] leaves at the address it returns: a default
    constructed object of the class, with the type set. *)
Definition created_object (c : MessageClass) (type : Z) : Object :=
  update_message (Message.SetType type (message_of (construct c)))
    (construct c).

(** The calls a destructor makes to free the block of an object. *)
Definition block_frees (o : Object) : list AllocatorCall :=
  match o with
  | PlainObject _ => []
  | BlockObject b =>
      match BlockMessage.m_allocator b, BlockMessage.m_blockData b with
      | Some a, Some d => [CallFree a d]
      | _, _ => []
      end
  end.

(** [o1] is the object [o] with, at most, another reference count. *)
Definition same_but_count (o o1 : Object) : Prop :=
  o1 = update_message
         (Message.set_refCount (Message.m_refCount (message_of o1))
            (message_of o)) o.

(** A call that is not a Create. *)
Definition not_Create (c : FactoryCall) : Prop :=
  match c with
  | DoCreate _ => False
  | _ => True
  end.

(** * Properties *)

(** ** Outcomes *)

Lemma assert_true cfg : assert_ cfg true = Ok tt.
Proof. unfold assert_. by destruct (assertions cfg). Qed.

Lemma bind_Ok_inv {A B} (c : Outcome A) (k : A → Outcome B) b :
  c ≫= k = Ok b → ∃ a, c = Ok a ∧ k a = Ok b.
Proof. destruct c; simpl; [eauto | done | done]. Qed.

(** Split a hypothesis [c ≫= k = Ok b] into its two steps. *)
Tactic Notation "bind_inv" hyp(H) "as" simple_intropattern(a)
    simple_intropattern(Ha) :=
  apply bind_Ok_inv in H as (a & Ha & H).

Tactic Notation "bind_inv" hyp(H) :=
  let a := fresh "a" in
  let Ha := fresh "Hstep" in
  apply bind_Ok_inv in H as (a & Ha & H).

(** ** Message *)

Lemma AddRef_Ok m m1 :
  Message.AddRef m = Ok m1 →
  m1 = Message.set_refCount (Message.m_refCount m + 1) m.
Proof. unfold Message.AddRef. case_match; congruence. Qed.

Lemma Release_Ok cfg m m1 :
  Message.Release cfg m = Ok m1 →
  m1 = Message.set_refCount (Message.m_refCount m - 1) m.
Proof.
  unfold Message.Release. intros H. bind_inv H.
  case_match; congruence.
Qed.

Lemma Release_positive cfg m :
  0 < Message.m_refCount m →
  Message.Release cfg m
  = Ok (Message.set_refCount (Message.m_refCount m - 1) m).
Proof.
  intros Hpos. unfold Message.Release.
  replace (0 <? Message.m_refCount m) with true by (symmetry; lia).
  rewrite assert_true. simpl.
  replace (INT_MIN <? Message.m_refCount m) with true; [done |].
  symmetry. apply Z.ltb_lt. unfold INT_MIN. lia.
Qed.

Lemma Release_not_positive cfg m :
  assertions cfg = true → Message.m_refCount m ≤ 0 →
  Message.Release cfg m = AssertionFailed.
Proof.
  intros Ha Hle. unfold Message.Release, assert_. rewrite Ha.
  replace (0 <? Message.m_refCount m) with false by (symmetry; lia).
  reflexivity.
Qed.

(** ** BlockMessage *)

Lemma BlockState_fields cfg g b :
  BlockState cfg g b →
  BlockMessage.IsBlockMessage b = true
  ∧ (BlockMessage.m_allocator b, BlockMessage.m_blockData b,
     BlockMessage.m_blockSize b)
    = match g with
      | None => (None, None, 0)
      | Some (a, d, s) => (Some a, d, s)
      end.
Proof.
  induction 1 as [ | g b id _ IH | g b type _ IH | g b b1 _ IH Hcall
                 | g b b1 _ IH Hcall | g b a d s b1 _ IH Hcall | g b _ IH ];
    try destruct IH as [IHflag IHtriple].
  - done.
  - done.
  - done.
  - unfold BlockMessage.AddRef in Hcall. bind_inv Hcall.
    apply AddRef_Ok in Hstep. by simplify_eq.
  - unfold BlockMessage.Release in Hcall. bind_inv Hcall.
    apply Release_Ok in Hstep. by simplify_eq.
  - unfold BlockMessage.AttachBlock in Hcall.
    do 3 bind_inv Hcall. by simplify_eq.
  - done.
Qed.

Lemma BlockState_unattached cfg b :
  BlockState cfg None b → BlockMessage.DetachBlock b = b.
Proof.
  intros [_ Heq]%BlockState_fields. destruct b. simpl in *. by simplify_eq.
Qed.

Lemma AttachBlock_Ok cfg a d s b :
  BlockMessage.m_blockData b = None → 0 < s →
  BlockMessage.AttachBlock cfg a (Some d) s b
  = Ok {| BlockMessage.base := BlockMessage.base b;
          BlockMessage.m_allocator := Some a;
          BlockMessage.m_blockData := Some d;
          BlockMessage.m_blockSize := s |}.
Proof.
  intros Hd Hs. unfold BlockMessage.AttachBlock. rewrite Hd.
  replace (0 <? s) with true by (symmetry; lia).
  rewrite (bool_decide_true (is_Some (Some d))) by eauto.
  rewrite (bool_decide_false (is_Some None)) by apply is_Some_None.
  simpl. by rewrite !assert_true.
Qed.

Lemma World_eta w :
  {| messages := messages w; answers := answers w; calls := calls w |} = w.
Proof. by destruct w. Qed.

(** C8: a BlockMessage with no block attached, whether freshly constructed
    or detached since its last AttachBlock, answers GetBlockData() with
    null, GetBlockSize() with 0, GetAllocator() with null and
    IsBlockMessage() with true. *)
Theorem unattached_accessors cfg b :
  BlockState cfg None b →
  BlockMessage.GetBlockData b = NULL
  ∧ BlockMessage.GetBlockSize b = 0
  ∧ BlockMessage.GetAllocator b = NULL
  ∧ BlockMessage.IsBlockMessage b = true.
Proof.
  intros [Hflag Htriple]%BlockState_fields.
  unfold BlockMessage.GetBlockData, BlockMessage.GetBlockSize,
    BlockMessage.GetAllocator.
  by simplify_eq.
Qed.

Lemma unattached_accessors_witness :
  BlockState debug_build None
    (BlockMessage.DetachBlock
       {| BlockMessage.base := Message.ctor 1;
          BlockMessage.m_allocator := Some 3%positive;
          BlockMessage.m_blockData := Some 9%positive;
          BlockMessage.m_blockSize := 64 |})
  ∧ BlockState debug_build None BlockMessage.ctor
  ∧ BlockMessage.GetBlockData BlockMessage.ctor = NULL
  ∧ BlockMessage.GetBlockSize BlockMessage.ctor = 0
  ∧ BlockMessage.GetAllocator BlockMessage.ctor = NULL
  ∧ BlockMessage.IsBlockMessage BlockMessage.ctor = true.
Proof.
  split; [| split].
  - apply BS_DetachBlock with (g := Some (3%positive, Some 9%positive, 64)).
    apply BS_AttachBlock with (g := None) (b := BlockMessage.ctor).
    + apply BS_ctor.
    + reflexivity.
  - apply BS_ctor.
  - apply (unattached_accessors debug_build BlockMessage.ctor). apply BS_ctor.
Defined.

Lemma invoke_block_Ok p b b1 method w :
  messages w !! p = Some (BlockObject b) → method b = Ok b1 →
  invoke_block p method w
  = Ok (set_messages (<[p := BlockObject b1]> (messages w)) w).
Proof. intros Hp Hm. unfold invoke_block. by rewrite Hp, Hm. Qed.

(** C5: on a BlockMessage with no block attached, AttachBlock with a
    non-null data pointer and a positive size followed by DetachBlock both
    return, leave the message unattached (the three accessors give null, 0,
    null) and make no call on any allocator: the buffer is not freed. *)
Theorem attach_then_detach cfg w p b a d s :
  messages w !! p = Some (BlockObject b) →
  BlockState cfg None b →
  0 < s →
  ∃ w1 w2 b2,
    invoke_block p (BlockMessage.AttachBlock cfg a (Some d) s) w = Ok w1
    ∧ invoke_block p (fun x => Ok (BlockMessage.DetachBlock x)) w1 = Ok w2
    ∧ messages w2 !! p = Some (BlockObject b2)
    ∧ BlockMessage.GetBlockData b2 = NULL
    ∧ BlockMessage.GetBlockSize b2 = 0
    ∧ BlockMessage.GetAllocator b2 = NULL
    ∧ calls w1 = calls w
    ∧ calls w2 = calls w
    ∧ w2 = w.
Proof.
  intros Hp Hb Hs.
  pose proof (BlockState_fields _ _ _ Hb) as [_ Htriple].
  pose proof (BlockState_unattached _ _ Hb) as Hsame.
  assert (BlockMessage.m_blockData b = None) as Hd by (by simplify_eq).
  eexists _, _, b. split; [| split].
  - erewrite invoke_block_Ok; [done | done |]. by apply AttachBlock_Ok.
  - erewrite invoke_block_Ok; [done | | done]. simpl. apply lookup_insert_eq.
  - simpl. rewrite insert_insert_eq.
    replace (BlockMessage.DetachBlock _) with b
      by (rewrite <- Hsame at 1; done).
    rewrite insert_id by done.
    unfold BlockMessage.GetBlockData, BlockMessage.GetBlockSize,
      BlockMessage.GetAllocator.
    split_and!; [done | by simplify_eq.. | done | done |].
    unfold set_messages. simpl. apply World_eta.
Qed.

Lemma attach_then_detach_witness :
  let w := {| messages := {[ 5%positive := BlockObject BlockMessage.ctor ]};
              answers := [];
              calls := [CallAllocate 1 (Some 5%positive)] |} in
  ∃ w1 w2 b2,
    invoke_block 5 (BlockMessage.AttachBlock debug_build 2 (Some 9%positive) 64) w
    = Ok w1
    ∧ invoke_block 5 (fun x => Ok (BlockMessage.DetachBlock x)) w1 = Ok w2
    ∧ messages w2 !! 5%positive = Some (BlockObject b2)
    ∧ BlockMessage.GetBlockData b2 = NULL
    ∧ BlockMessage.GetBlockSize b2 = 0
    ∧ BlockMessage.GetAllocator b2 = NULL
    ∧ calls w1 = calls w
    ∧ calls w2 = calls w
    ∧ w2 = w.
Proof.
  intros w.
  apply (attach_then_detach debug_build w 5%positive BlockMessage.ctor
           2%positive 9%positive 64).
  - reflexivity.
  - apply BS_ctor.
  - lia.
Defined.

Lemma dtor_step_idempotent s : dtor_step (dtor_step s) = dtor_step s.
Proof.
  destruct s as [b w]. unfold dtor_step, BlockMessage_dtor. simpl.
  destruct (BlockMessage.m_allocator b) as [a |] eqn:Ha; simpl.
  - by destruct (BlockMessage.m_blockData b).
  - by rewrite Ha.
Qed.

Lemma dtor_step_iter n s : Nat.iter (S n) dtor_step s = dtor_step s.
Proof.
  induction n as [| n IH]; [done |].
  change (Nat.iter (S (S n)) dtor_step s)
    with (dtor_step (Nat.iter (S n) dtor_step s)).
  rewrite IH. apply dtor_step_idempotent.
Qed.

(** C6: the destructor of a BlockMessage.  With a block attached it makes
    one call, Free of that block on the allocator recorded by AttachBlock,
    and leaves the triple (allocator, data, size) at (null, null, 0); with
    no block attached it changes nothing; and running the guarded body
    again, any number of times, adds nothing to the first run, so the block
    is freed at most once.  (A null block attached with assertions
    compiled out is covered too: nothing to free, the triple is reset.) *)
Theorem BlockMessage_dtor_frees_once cfg g b w n :
  BlockState cfg g b →
  match g with
  | Some (a, Some d, s) =>
      ∃ b1, BlockMessage_dtor b w = (b1, record_call (CallFree a d) w)
            ∧ BlockMessage.base b1 = BlockMessage.base b
            ∧ BlockMessage.m_allocator b1 = NULL
            ∧ BlockMessage.m_blockData b1 = NULL
            ∧ BlockMessage.m_blockSize b1 = 0
            ∧ frees (calls (BlockMessage_dtor b w).2)
              = (a, d) :: frees (calls w)
  | Some (a, None, s) =>
      BlockMessage_dtor b w = (BlockMessage.DetachBlock b, w)
  | None =>
      BlockMessage_dtor b w = (b, w)
  end
  ∧ Nat.iter (S n) dtor_step (b, w) = BlockMessage_dtor b w.
Proof.
  intros [_ Htriple]%BlockState_fields. split; [| apply dtor_step_iter].
  unfold BlockMessage_dtor.
  destruct g as [[[a [d |]] s] |]; injection Htriple as Ha Hd Hs;
    rewrite Ha, ?Hd; simpl.
  - eexists. by split_and!.
  - done.
  - done.
Qed.

Lemma BlockMessage_dtor_frees_once_witness :
  let b := {| BlockMessage.base := Message.set_refCount 0 (Message.ctor 1);
              BlockMessage.m_allocator := Some 2%positive;
              BlockMessage.m_blockData := Some 9%positive;
              BlockMessage.m_blockSize := 64 |} in
  let w := {| messages := ∅; answers := []; calls := [] |} in
  BlockState debug_build (Some (2%positive, Some 9%positive, 64)) b
  ∧ (∃ b1, BlockMessage_dtor b w = (b1, record_call (CallFree 2 9) w)
           ∧ BlockMessage.base b1 = BlockMessage.base b
           ∧ BlockMessage.m_allocator b1 = NULL
           ∧ BlockMessage.m_blockData b1 = NULL
           ∧ BlockMessage.m_blockSize b1 = 0
           ∧ frees (calls (BlockMessage_dtor b w).2)
             = (2%positive, 9%positive) :: frees (calls w))
  ∧ Nat.iter 3 dtor_step (b, w) = BlockMessage_dtor b w.
Proof.
  intros b w.
  assert (BlockState debug_build (Some (2%positive, Some 9%positive, 64)) b)
    as Hb.
  { apply BS_Release with (g := Some (2%positive, Some 9%positive, 64))
      (b := {| BlockMessage.base := Message.ctor 1;
               BlockMessage.m_allocator := Some 2%positive;
               BlockMessage.m_blockData := Some 9%positive;
               BlockMessage.m_blockSize := 64 |}); [| reflexivity].
    apply BS_AttachBlock with (g := None) (b := BlockMessage.ctor);
      [apply BS_ctor | reflexivity]. }
  split; [exact Hb |].
  exact (BlockMessage_dtor_frees_once debug_build _ b w 2 Hb).
Defined.

(** C9: the serialize function of the base BlockMessage writes nothing and
    reads nothing: for the read, the write and the measure stream it
    returns true and leaves the stream, and the message, as they were. *)
Theorem Serialize_leaves_stream (ReadStream WriteStream MeasureStream : Type)
    (b : BlockMessage.t) (rs : ReadStream) (ws : WriteStream)
    (ms : MeasureStream) :
  SerializeInternal_read ReadStream b rs = (true, b, rs)
  ∧ SerializeInternal_write WriteStream b ws = (true, b, ws)
  ∧ SerializeInternal_measure MeasureStream b ms = (true, b, ms).
Proof. by split_and!. Qed.

(** ** MessageFactory: creation *)

Lemma switch_Some type cases message_type message_class :
  switch type cases = Some (message_type, message_class) →
  message_type = type.
Proof.
  induction cases as [| [t c] rest IH]; simpl; [done |].
  destruct (type =? t) eqn:Heq; [| done].
  intros [= <- <-]. symmetry. by apply Z.eqb_eq.
Qed.

Lemma construct_fresh c :
  Message.m_refCount (message_of (construct c)) = 1.
Proof. by destruct c. Qed.

Lemma message_of_update m o : message_of (update_message m o) = m.
Proof. by destruct o. Qed.

Lemma YOJIMBO_NEW_messages a c w r w1 :
  YOJIMBO_NEW a c w = (r, w1) →
  messages w1
  = match r with
    | Some p => <[p := construct c]> (messages w)
    | None => messages w
    end.
Proof.
  unfold YOJIMBO_NEW, Allocate.
  destruct (answers w) as [| [p |] rest]; simpl; by intros [= <- <-].
Qed.

Lemma GetAllocator_constructed cfg f :
  MessageFactory.constructed f →
  ∃ a, MessageFactory.GetAllocator cfg f = Ok a.
Proof.
  intros [a Ha]. exists a. unfold MessageFactory.GetAllocator.
  rewrite Ha, (bool_decide_true (is_Some (Some a))) by eauto.
  by rewrite assert_true.
Qed.

Lemma CreateInternal_created cfg C f type w r w1 :
  MessageFactory.CreateInternal cfg C f type w = Ok (r, w1) →
  created type w r w1.
Proof.
  revert w r w1. induction C as [| B IH cases]; intros w r w1; simpl.
  - intros [= <- <-]. by split.
  - intros H. bind_inv H. destruct a as [[p |] w0].
    + simplify_eq. by apply IH.
    + apply IH in Hstep as [Hkeys _]. bind_inv H.
      destruct (switch type cases) as [[mt mc] |] eqn:Hsw;
        [| simplify_eq; by split].
      apply switch_Some in Hsw as ->.
      destruct (YOJIMBO_NEW a mc w0) as [[p |] w2] eqn:Hnew;
        apply YOJIMBO_NEW_messages in Hnew.
      * bind_inv H. simplify_eq.
        unfold MessageFactory.SetMessageType, invoke in Hstep0.
        rewrite Hnew, lookup_insert_eq in Hstep0. simpl in Hstep0.
        simplify_eq. unfold created. simpl.
        rewrite insert_insert_eq. split.
        -- intros q Hq%Hkeys. rewrite lookup_insert.
           case_decide; [eauto | done].
        -- eexists. rewrite lookup_insert_eq. split; [done |].
           rewrite message_of_update. simpl. split; [| done].
           apply construct_fresh.
      * simplify_eq. split; [| done]. intros q Hq%Hkeys. by rewrite Hnew.
Qed.

Lemma CreateInternal_constructed cfg C f type w :
  MessageFactory.constructed f →
  ∃ r w1, MessageFactory.CreateInternal cfg C f type w = Ok (r, w1).
Proof.
  intros Hf. revert w. induction C as [| B IH cases]; intros w; simpl.
  - eauto.
  - destruct (IH w) as ([p |] & w0 & ->); simpl; [eauto |].
    destruct (GetAllocator_constructed cfg f Hf) as [a ->]. simpl.
    destruct (switch type cases) as [[mt mc] |]; [| eauto].
    destruct (YOJIMBO_NEW a mc w0) as [[p |] w2] eqn:Hnew; [| eauto].
    apply YOJIMBO_NEW_messages in Hnew.
    unfold MessageFactory.SetMessageType, invoke.
    rewrite Hnew, lookup_insert_eq. simpl. eauto.
Qed.

Lemma CreateInternal_undeclared cfg C f type w :
  MessageFactory.constructed f → declared C type = None →
  MessageFactory.CreateInternal cfg C f type w = Ok (NULL, w).
Proof.
  intros Hf. induction C as [| B IH cases]; simpl; [done |].
  destruct (declared B type) as [c |]; [done |]. intros Hsw.
  rewrite IH by done. simpl.
  destruct (GetAllocator_constructed cfg f Hf) as [a ->]. simpl.
  by destruct (switch type cases).
Qed.

Lemma asserts_in_range cfg type n :
  0 ≤ type < n →
  assert_ cfg (0 <=? type) = Ok tt ∧ assert_ cfg (type <? n) = Ok tt.
Proof.
  intros [H0 Hn].
  replace (0 <=? type) with true by (symmetry; lia).
  replace (type <? n) with true by (symmetry; lia).
  by rewrite assert_true.
Qed.

Lemma Create_inv cfg C type f w r f1 w1 :
  MessageFactory.Create cfg C type (f, w) = Ok (r, (f1, w1)) →
  created type w r w1
  ∧ MessageFactory.m_allocator f1 = MessageFactory.m_allocator f
  ∧ MessageFactory.m_numTypes f1 = MessageFactory.m_numTypes f
  ∧ MessageFactory.m_error f1
    = match r with
      | Some _ => MessageFactory.m_error f
      | None => MESSAGE_FACTORY_ERROR_FAILED_TO_ALLOCATE_MESSAGE
      end.
Proof.
  unfold MessageFactory.Create. intros H. do 3 bind_inv H.
  destruct a1 as [[p |] w0]; apply CreateInternal_created in Hstep1.
  - destruct (YOJIMBO_DEBUG_MESSAGE_LEAKS cfg); [bind_inv H |]; by simplify_eq.
  - by simplify_eq.
Qed.

Lemma bitfield_small w v : 0 ≤ v < 2 ^ w → bitfield w v = v.
Proof. intros Hv. unfold bitfield. by apply Z.mod_small. Qed.

Lemma Create_constructed cfg C f w type :
  MessageFactory.constructed f →
  0 ≤ type < MessageFactory.GetNumTypes f →
  ∃ r f1 w1, MessageFactory.Create cfg C type (f, w) = Ok (r, (f1, w1)).
Proof.
  intros Hf Htype. unfold MessageFactory.Create, MessageFactory.GetNumTypes in *.
  destruct (asserts_in_range cfg _ _ Htype) as [-> ->]. simpl.
  destruct (CreateInternal_constructed cfg C f type w Hf) as ([p |] & w1 & ->);
    simpl; [| eauto].
  destruct (YOJIMBO_DEBUG_MESSAGE_LEAKS cfg); [| eauto]. simpl.
  rewrite lookup_insert_eq, (bool_decide_true (is_Some (Some 1))) by eauto.
  rewrite assert_true. simpl. eauto.
Qed.

(** C1 (amended): for every type in [0, numTypes) that fits the 15-bit
    type field of a message (type < 32768), Create( type ) on a live
    factory returns, and it returns either a message whose reference count
    is 1 and whose GetType() is type, or null with the error level of the
    factory at FAILED_TO_ALLOCATE_MESSAGE. *)
Theorem Create_returns_typed_message cfg C f w type :
  MessageFactory.constructed f →
  0 ≤ type < MessageFactory.GetNumTypes f →
  type < 2 ^ 15 →
  Create_post type (MessageFactory.Create cfg C type (f, w)).
Proof.
  intros Hf Htype Hfield.
  destruct (Create_constructed cfg C f w type Hf Htype)
    as (r & f1 & w1 & Hcreate).
  rewrite Hcreate.
  apply Create_inv in Hcreate as ([_ Hnew] & _ & _ & Herr).
  destruct r as [p |]; simpl; [| done].
  destruct Hnew as (o & Ho & Hcount & Htag). exists o.
  rewrite bitfield_small in Htag by lia. done.
Qed.

Lemma Create_returns_typed_message_witness :
  let C := MacroFactory BaseFactory
             [(0, DerivedFromMessage); (1, DerivedFromBlockMessage)] in
  let f := MessageFactory.ctor 1 3 in
  let w := {| messages := ∅; answers := [Some 7%positive]; calls := [] |} in
  MessageFactory.constructed f
  ∧ 0 ≤ 1 < MessageFactory.GetNumTypes f
  ∧ 1 < 2 ^ 15
  ∧ Create_post 1 (MessageFactory.Create debug_build C 1 (f, w)).
Proof.
  intros C f w.
  assert (MessageFactory.constructed f) as Hf by (by exists 1%positive).
  assert (0 ≤ 1 < MessageFactory.GetNumTypes f) as Htype by (simpl; lia).
  assert (1 < 2 ^ 15) as Hfield by lia.
  split_and!; [done.. |].
  exact (Create_returns_typed_message debug_build C f w 1 Hf Htype Hfield).
Defined.

(** C1 as stated fails: a factory of 32769 types that declares a message
    class for type 32768 returns for Create( 32768 ) a message whose
    GetType() is 0, the low 15 bits of 32768. *)
Lemma Create_type_does_not_fit :
  let C := MacroFactory BaseFactory [(32768, DerivedFromMessage)] in
  let f := MessageFactory.ctor 1 32769 in
  let w := {| messages := ∅; answers := [Some 7%positive]; calls := [] |} in
  MessageFactory.constructed f
  ∧ 0 ≤ 32768 < MessageFactory.GetNumTypes f
  ∧ MessageFactory.Create debug_build C 32768 (f, w)
    = Ok (Some 7%positive,
          (MessageFactory.set_allocated_messages {[ 7%positive := 1 ]} f,
           {| messages :=
                {[ 7%positive :=
                     PlainObject {| Message.m_refCount := 1;
                                    Message.m_id := 0;
                                    Message.m_type := 0;
                                    Message.m_blockMessage := 0 |} ]};
              answers := [];
              calls := [CallAllocate 1 (Some 7%positive)] |}))
  ∧ ¬ Create_post 32768 (MessageFactory.Create debug_build C 32768 (f, w)).
Proof.
  intros C f w.
  assert (MessageFactory.Create debug_build C 32768 (f, w)
          = Ok (Some 7%positive,
                (MessageFactory.set_allocated_messages {[ 7%positive := 1 ]} f,
                 {| messages :=
                      {[ 7%positive :=
                           PlainObject {| Message.m_refCount := 1;
                                          Message.m_id := 0;
                                          Message.m_type := 0;
                                          Message.m_blockMessage := 0 |} ]};
                    answers := [];
                    calls := [CallAllocate 1 (Some 7%positive)] |})))
    as Hcreate by (vm_compute; reflexivity).
  split_and!.
  - by exists 1%positive.
  - simpl. lia.
  - simpl. lia.
  - exact Hcreate.
  - rewrite Hcreate. simpl. intros (o & Ho & _ & Htag).
    rewrite lookup_singleton_eq in Ho. by simplify_eq.
Qed.

(** C10: the CreateInternal of the base MessageFactory returns null for
    every type and touches nothing.  So on a factory of the base class, or
    of a class written with the macros that declares no message class for
    the type, Create( type ) with type in [0, numTypes) returns null and
    sets the error level to FAILED_TO_ALLOCATE_MESSAGE, and the world,
    with the calls made on allocators, is as before: no allocation was
    attempted. *)
Theorem Create_undeclared_type cfg C f w type :
  MessageFactory.constructed f →
  0 ≤ type < MessageFactory.GetNumTypes f →
  declared C type = None →
  (∀ f0 type0 w0,
      MessageFactory.CreateInternal cfg BaseFactory f0 type0 w0 = Ok (NULL, w0))
  ∧ (∃ f1, MessageFactory.Create cfg C type (f, w) = Ok (NULL, (f1, w))
           ∧ MessageFactory.GetError f1
             = MESSAGE_FACTORY_ERROR_FAILED_TO_ALLOCATE_MESSAGE)
  ∧ (∃ f1, MessageFactory.Create cfg BaseFactory type (f, w)
           = Ok (NULL, (f1, w))
           ∧ MessageFactory.GetError f1
             = MESSAGE_FACTORY_ERROR_FAILED_TO_ALLOCATE_MESSAGE).
Proof.
  intros Hf Htype Hnone. split; [done |].
  unfold MessageFactory.Create, MessageFactory.GetNumTypes in *.
  destruct (asserts_in_range cfg _ _ Htype) as [-> ->]. simpl.
  rewrite CreateInternal_undeclared by done. simpl. split; eauto.
Qed.

Lemma Create_undeclared_type_witness :
  let C := MacroFactory BaseFactory
             [(0, DerivedFromMessage); (2, DerivedFromBlockMessage)] in
  let f := MessageFactory.ctor 1 3 in
  let w := {| messages := ∅; answers := [Some 7%positive]; calls := [] |} in
  MessageFactory.constructed f
  ∧ 0 ≤ 1 < MessageFactory.GetNumTypes f
  ∧ declared C 1 = None
  ∧ (∃ f1, MessageFactory.Create debug_build C 1 (f, w) = Ok (NULL, (f1, w))
           ∧ MessageFactory.GetError f1
             = MESSAGE_FACTORY_ERROR_FAILED_TO_ALLOCATE_MESSAGE).
Proof.
  intros C f w.
  assert (MessageFactory.constructed f) as Hf by (by exists 1%positive).
  assert (0 ≤ 1 < MessageFactory.GetNumTypes f) as Htype by (simpl; lia).
  assert (declared C 1 = None) as Hnone by reflexivity.
  split_and!; [done.. |].
  exact (proj1 (proj2
    (Create_undeclared_type debug_build C f w 1 Hf Htype Hnone))).
Defined.

(** ** MessageFactory: references *)

Lemma invoke_inv p method w w1 :
  invoke p method w = Ok w1 →
  ∃ o m, messages w !! p = Some o
         ∧ method (message_of o) = Ok m
         ∧ w1 = set_messages (<[p := update_message m o]> (messages w)) w.
Proof.
  unfold invoke. destruct (messages w !! p) as [o |]; [| done].
  intros H. bind_inv H. simplify_eq. eauto.
Qed.

Lemma BlockMessage_dtor_frame b w :
  BlockMessage.base (BlockMessage_dtor b w).1 = BlockMessage.base b
  ∧ messages (BlockMessage_dtor b w).2 = messages w.
Proof.
  unfold BlockMessage_dtor.
  destruct (BlockMessage.m_allocator b); [| done].
  by destruct (BlockMessage.m_blockData b).
Qed.

Lemma destroy_messages cfg o w w1 :
  destroy cfg o w = Ok w1 → messages w1 = messages w.
Proof.
  destruct o as [m | b]; simpl.
  - intros H. bind_inv H. by simplify_eq.
  - pose proof (BlockMessage_dtor_frame b w) as [_ Hm].
    destruct (BlockMessage_dtor b w) as [b1 w2]. simpl in *.
    intros H. bind_inv H. by simplify_eq.
Qed.

Lemma destroy_released cfg o w :
  Message.m_refCount (message_of o) = 0 → ∃ w1, destroy cfg o w = Ok w1.
Proof.
  destruct o as [m | b]; simpl; intros Hcount.
  - unfold Message.dtor. rewrite Hcount. simpl. rewrite assert_true. eauto.
  - pose proof (BlockMessage_dtor_frame b w) as [Hbase _].
    destruct (BlockMessage_dtor b w) as [b1 w2]. simpl in *.
    unfold Message.dtor. rewrite Hbase, Hcount. simpl.
    rewrite assert_true. eauto.
Qed.

Lemma AddRef_inv cfg message f w f1 w1 :
  MessageFactory.AddRef cfg message (f, w) = Ok (f1, w1) →
  f1 = f
  ∧ match message with
    | None => w1 = w
    | Some p =>
        ∃ o, messages w !! p = Some o
             ∧ messages w1
               = <[p := update_message
                          (Message.set_refCount
                             (Message.m_refCount (message_of o) + 1)
                             (message_of o)) o]> (messages w)
    end.
Proof.
  unfold MessageFactory.AddRef. intros H. bind_inv H.
  destruct message as [p |]; [| by simplify_eq].
  bind_inv H. apply invoke_inv in Hstep0 as (o & m & Ho & Hm & ->).
  apply AddRef_Ok in Hm as ->. simplify_eq. eauto.
Qed.

Lemma Release_inv cfg message f w f1 w1 :
  MessageFactory.Release cfg message (f, w) = Ok (f1, w1) →
  MessageFactory.m_error f1 = MessageFactory.m_error f
  ∧ MessageFactory.m_allocator f1 = MessageFactory.m_allocator f
  ∧ match message with
    | None => w1 = w ∧ f1 = f
    | Some p =>
        ∃ o, messages w !! p = Some o
             ∧ messages w1 = released p o (messages w)
    end.
Proof.
  unfold MessageFactory.Release. intros H. bind_inv H as [] _.
  destruct message as [p |]; [| by simplify_eq].
  bind_inv H as wr Hinvoke.
  apply invoke_inv in Hinvoke as (o & m & Ho & Hm & ->).
  apply Release_Ok in Hm as ->. bind_inv H as n Hn.
  unfold MessageFactory.refCount_at in Hn. simpl in Hn.
  rewrite lookup_insert_eq, message_of_update in Hn. simpl in Hn.
  simplify_eq. unfold released.
  destruct (Message.m_refCount (message_of o) - 1 =? 0) eqn:Hzero.
  - bind_inv H as f2 Haudit. bind_inv H as [] _.
    assert (MessageFactory.m_error f2 = MessageFactory.m_error f
            ∧ MessageFactory.m_allocator f2 = MessageFactory.m_allocator f)
      as [Herr Hall].
    { destruct (YOJIMBO_DEBUG_MESSAGE_LEAKS cfg);
        [bind_inv Haudit as [] _ |]; by simplify_eq. }
    destruct (MessageFactory.m_allocator f2) as [al |] eqn:Hal; [| done].
    bind_inv H as w2 Hdelete. injection H as <- <-.
    split; [exact Herr | split; [by rewrite Hal |]].
    exists o. split; [done |].
    unfold YOJIMBO_DELETE in Hdelete. simpl in Hdelete.
    rewrite lookup_insert_eq in Hdelete. bind_inv Hdelete as w3 Hdestroy.
    apply destroy_messages in Hdestroy. injection Hdelete as <-. simpl.
    rewrite Hdestroy, Hzero. simpl. apply delete_insert_eq.
  - injection H as <- <-. split_and!; [done.. |].
    exists o. by rewrite Hzero.
Qed.

Lemma Release_last cfg f w p o :
  messages w !! p = Some o →
  Message.m_refCount (message_of o) = 1 →
  MessageFactory.constructed f →
  (YOJIMBO_DEBUG_MESSAGE_LEAKS cfg = true →
   is_Some (MessageFactory.allocated_messages f !! p)) →
  ∃ f1 w1, MessageFactory.Release cfg (Some p) (f, w) = Ok (f1, w1).
Proof.
  intros Ho Hcount [al Hal] Haudit. unfold MessageFactory.Release.
  rewrite (bool_decide_true (is_Some (Some p))) by eauto.
  rewrite assert_true. simpl. unfold invoke. rewrite Ho.
  rewrite Release_positive by lia. simpl.
  unfold MessageFactory.refCount_at. simpl.
  rewrite lookup_insert_eq, message_of_update. simpl. rewrite Hcount. simpl.
  assert (∃ f2,
    (if YOJIMBO_DEBUG_MESSAGE_LEAKS cfg
     then
       _ ← assert_ cfg
             (bool_decide (is_Some (MessageFactory.allocated_messages f !! p)));
       Ok (MessageFactory.set_allocated_messages
             (delete p (MessageFactory.allocated_messages f)) f)
     else Ok f) = Ok f2
    ∧ MessageFactory.m_allocator f2 = Some al) as (f2 & -> & Hal2).
  { destruct (YOJIMBO_DEBUG_MESSAGE_LEAKS cfg); [| eauto].
    rewrite bool_decide_true by auto. rewrite assert_true. simpl. eauto. }
  simpl. rewrite Hal2.
  rewrite (bool_decide_true (is_Some (Some al))) by eauto.
  rewrite assert_true. simpl.
  edestruct (destroy_released cfg
    (update_message (Message.set_refCount (1 - 1) (message_of o)) o))
    as [w2 ->]; [by rewrite message_of_update |].
  simpl. eauto.
Qed.

Lemma Release_shared cfg f w p o :
  messages w !! p = Some o →
  1 < Message.m_refCount (message_of o) →
  MessageFactory.Release cfg (Some p) (f, w)
  = Ok (f, set_messages (released p o (messages w)) w).
Proof.
  intros Ho Hcount. unfold MessageFactory.Release.
  rewrite (bool_decide_true (is_Some (Some p))) by eauto.
  rewrite assert_true. simpl. unfold invoke. rewrite Ho.
  rewrite Release_positive by lia. simpl.
  unfold MessageFactory.refCount_at, released. simpl.
  rewrite lookup_insert_eq, message_of_update. simpl.
  by replace (Message.m_refCount (message_of o) - 1 =? 0) with false
    by (symmetry; lia).
Qed.

Lemma Release_already_zero cfg f w p o :
  messages w !! p = Some o →
  Message.m_refCount (message_of o) ≤ 0 →
  assertions cfg = true →
  MessageFactory.Release cfg (Some p) (f, w) = AssertionFailed.
Proof.
  intros Ho Hcount Hassert. unfold MessageFactory.Release.
  rewrite (bool_decide_true (is_Some (Some p))) by eauto.
  rewrite assert_true. simpl. unfold invoke. rewrite Ho.
  by rewrite Release_not_positive.
Qed.

Lemma released_lookup p o h q :
  h !! p = Some o →
  released p o h !! q
  = if decide (p = q)
    then (if Message.m_refCount (message_of o) =? 1
          then None
          else Some (update_message
                       (Message.set_refCount
                          (Message.m_refCount (message_of o) - 1)
                          (message_of o)) o))
    else h !! q.
Proof.
  intros Ho. unfold released.
  destruct (Z.eqb_spec (Message.m_refCount (message_of o)) 1) as [H1 | H1].
  - replace (Message.m_refCount (message_of o) - 1 =? 0) with true
      by (symmetry; lia).
    rewrite lookup_delete. by case_decide.
  - replace (Message.m_refCount (message_of o) - 1 =? 0) with false
      by (symmetry; lia).
    rewrite lookup_insert. by case_decide.
Qed.

Lemma step_destroys cfg C c f w f1 w1 q o :
  step cfg C c (f, w) = Ok (f1, w1) →
  messages w !! q = Some o →
  messages w1 !! q = None
  ↔ c = DoRelease (Some q) ∧ Message.GetRefCount (message_of o) = 1.
Proof.
  intros Hstep Hq. unfold Message.GetRefCount.
  destruct c as [type | message | message |]; simpl in Hstep.
  - bind_inv Hstep as [r [f2 w2]] Hcreate. simpl in Hstep.
    injection Hstep as <- <-.
    apply Create_inv in Hcreate as ([Hkeys _] & _).
    destruct (Hkeys q) as [o1 Ho1]; [eauto |]. rewrite Ho1.
    split; [done | by intros [? _]].
  - apply AddRef_inv in Hstep as [_ Hw].
    assert (is_Some (messages w1 !! q)) as [o1 Ho1].
    { destruct message as [p |]; [| subst; eauto].
      destruct Hw as (o0 & _ & ->). rewrite lookup_insert.
      case_decide; eauto. }
    rewrite Ho1. split; [done | by intros [? _]].
  - apply Release_inv in Hstep as (_ & _ & Hw).
    destruct message as [p |].
    + destruct Hw as (o0 & Ho0 & ->). rewrite (released_lookup _ _ _ _ Ho0).
      case_decide as Hpq.
      * subst p. assert (o0 = o) as -> by congruence.
        destruct (Z.eqb_spec (Message.m_refCount (message_of o)) 1).
        -- done.
        -- split; [done | by intros [_ ?]].
      * rewrite Hq. split; [done | intros [? _]; congruence].
    + destruct Hw as [-> _]. rewrite Hq. split; [done | by intros [? _]].
  - injection Hstep as <- <-. simpl. rewrite Hq.
    split; [done | by intros [? _]].
Qed.

(** C2: a call on the factory destroys a live message exactly when it is
    the Release of that message with a reference count of 1, which the
    call takes to 0; that last Release does return.  Message::Release
    alone only takes one off the count: the message stays in place, also
    at count 0, and no allocator is called.  A Release at a count above 1
    leaves the message alive with one reference less.  A Release at a count
    of 0 (or below) is fatal where assertions are compiled in: it fails
    the assertion of Message::Release. *)
Theorem Release_destroys_at_zero cfg C f w q o :
  messages w !! q = Some o →
  (∀ c f1 w1,
      step cfg C c (f, w) = Ok (f1, w1) →
      messages w1 !! q = None
      ↔ c = DoRelease (Some q) ∧ Message.GetRefCount (message_of o) = 1)
  ∧ (Message.GetRefCount (message_of o) = 1 →
     MessageFactory.constructed f →
     (YOJIMBO_DEBUG_MESSAGE_LEAKS cfg = true →
      is_Some (MessageFactory.allocated_messages f !! q)) →
     ∃ f1 w1, MessageFactory.Release cfg (Some q) (f, w) = Ok (f1, w1)
              ∧ messages w1 !! q = None)
  ∧ (∀ w1, invoke q (Message.Release cfg) w = Ok w1 →
       ∃ o1, messages w1 !! q = Some o1
             ∧ Message.GetRefCount (message_of o1)
               = Message.GetRefCount (message_of o) - 1
             ∧ calls w1 = calls w
             ∧ ∀ q', q' ≠ q → messages w1 !! q' = messages w !! q')
  ∧ (1 < Message.GetRefCount (message_of o) →
     ∃ w1 o1, MessageFactory.Release cfg (Some q) (f, w) = Ok (f, w1)
              ∧ messages w1 !! q = Some o1
              ∧ Message.GetRefCount (message_of o1)
                = Message.GetRefCount (message_of o) - 1)
  ∧ (Message.GetRefCount (message_of o) ≤ 0 →
     assertions cfg = true →
     Message.Release cfg (message_of o) = AssertionFailed
     ∧ MessageFactory.Release cfg (Some q) (f, w) = AssertionFailed).
Proof.
  intros Hq. unfold Message.GetRefCount. split_and!.
  - intros c f1 w1 Hstep. by eapply step_destroys.
  - intros Hone Hf Haudit.
    destruct (Release_last cfg f w q o Hq Hone Hf Haudit) as (f1 & w1 & Hrel).
    exists f1, w1. split; [done |].
    apply (step_destroys cfg C (DoRelease (Some q)) f w f1 w1 q o); done.
  - intros w1 (o0 & m & Ho0 & Hm & ->)%invoke_inv.
    assert (o0 = o) as -> by congruence. apply Release_Ok in Hm as ->.
    eexists. simpl. rewrite lookup_insert_eq. split; [done |].
    rewrite message_of_update. split_and!; [done | done |].
    intros q' Hne. by rewrite lookup_insert_ne.
  - intros Hshared. rewrite (Release_shared cfg f w q o) by done.
    eexists _, _. split; [done |]. simpl.
    rewrite (released_lookup _ _ _ _ Hq). rewrite decide_True by done.
    replace (Message.m_refCount (message_of o) =? 1) with false
      by (symmetry; lia).
    split; [done |]. by rewrite message_of_update.
  - intros Hzero Hassert.
    split; [by apply Release_not_positive | by eapply Release_already_zero].
Qed.

Lemma Release_destroys_at_zero_witness :
  let C := MacroFactory BaseFactory [(0, DerivedFromBlockMessage)] in
  let f := MessageFactory.set_allocated_messages {[ 5%positive := 1 ]}
             (MessageFactory.ctor 1 1) in
  let o := BlockObject
             {| BlockMessage.base := Message.ctor 1;
                BlockMessage.m_allocator := Some 2%positive;
                BlockMessage.m_blockData := Some 9%positive;
                BlockMessage.m_blockSize := 64 |} in
  let w := {| messages := {[ 5%positive := o ]}; answers := []; calls := [] |} in
  messages w !! 5%positive = Some o
  ∧ Message.GetRefCount (message_of o) = 1
  ∧ MessageFactory.Release debug_build (Some 5%positive) (f, w)
    = Ok (MessageFactory.ctor 1 1,
          {| messages := ∅; answers := [];
             calls := [CallFree 1 5; CallFree 2 9] |})
  ∧ ∃ f1 w1, MessageFactory.Release debug_build (Some 5%positive) (f, w)
             = Ok (f1, w1)
             ∧ messages w1 !! 5%positive = None.
Proof.
  intros C f o w.
  assert (messages w !! 5%positive = Some o) as Hq by reflexivity.
  split_and!; [done | done | by vm_compute |].
  apply (Release_destroys_at_zero debug_build C f w 5%positive o Hq).
  - reflexivity.
  - by exists 1%positive.
  - intros _. by exists 1.
Defined.

(** ** Counting references *)

Lemma count_calls_cons c x cs :
  count_calls c (x :: cs)
  = (if decide (x = c) then 1 else 0) + count_calls c cs.
Proof.
  unfold count_calls. rewrite filter_cons.
  case_decide; simpl; lia.
Qed.

Lemma run_cons cfg C c cs s :
  run cfg C (c :: cs) s = step cfg C c s ≫= run cfg C cs.
Proof. reflexivity. Qed.

Lemma run_on_dead cfg C p cs f w f1 w1 :
  messages w !! p = None →
  Forall (fun c => c = DoAddRef (Some p) ∨ c = DoRelease (Some p)) cs →
  run cfg C cs (f, w) = Ok (f1, w1) →
  cs = [].
Proof.
  intros Hdead Hcs Hrun. destruct cs as [| c rest]; [done |].
  apply Forall_cons in Hcs as [[-> | ->] _]; rewrite run_cons in Hrun;
    bind_inv Hrun as [f2 w2] Hcall.
  - apply (AddRef_inv cfg (Some p)) in Hcall as (_ & o & Ho & _). congruence.
  - apply (Release_inv cfg (Some p)) in Hcall as (_ & _ & o & Ho & _).
    congruence.
Qed.

Lemma run_balance cfg C p cs :
  Forall (fun c => c = DoAddRef (Some p) ∨ c = DoRelease (Some p)) cs →
  ∀ f w o f1 w1 o1,
    messages w !! p = Some o →
    run cfg C cs (f, w) = Ok (f1, w1) →
    messages w1 !! p = Some o1 →
    Message.m_refCount (message_of o1)
    = Message.m_refCount (message_of o)
      + count_calls (DoAddRef (Some p)) cs
      - count_calls (DoRelease (Some p)) cs.
Proof.
  induction 1 as [| c rest Hc Hrest IH]; intros f w o f1 w1 o1 Ho Hrun Ho1.
  - simpl in Hrun. simplify_eq. unfold count_calls. simpl. lia.
  - rewrite run_cons in Hrun. bind_inv Hrun as [f2 w2] Hcall.
    rewrite !count_calls_cons. destruct Hc as [-> | ->].
    + apply (AddRef_inv cfg (Some p)) in Hcall as (_ & o0 & Ho0 & Hw2).
      assert (o0 = o) as -> by congruence.
      erewrite (IH f2 w2 _ f1 w1 o1); [| by rewrite Hw2, lookup_insert_eq
                                        | done | done].
      rewrite message_of_update, decide_True, decide_False by done.
      simpl. lia.
    + apply (Release_inv cfg (Some p)) in Hcall as (_ & _ & o0 & Ho0 & Hw2).
      assert (o0 = o) as -> by congruence.
      pose proof (released_lookup p o (messages w) p Ho) as Hp.
      rewrite <- Hw2, decide_True in Hp by done.
      destruct (Message.m_refCount (message_of o) =? 1).
      * pose proof (run_on_dead _ _ _ _ _ _ _ _ Hp Hrest Hrun) as ->.
        simpl in Hrun. simplify_eq.
      * erewrite (IH f2 w2 _ f1 w1 o1); [| exact Hp | exact Hrun | exact Ho1].
        rewrite message_of_update, decide_False, decide_True by done.
        simpl. lia.
Qed.

(** C3: from a message as Create returns it, after any sequence of AddRef
    and Release calls on it that the factory carries out and that leaves
    the message alive, the number of AddRef calls minus the number of
    Release calls is GetRefCount() - 1. *)
Theorem references_balance cfg C type s p f w cs f1 w1 o :
  MessageFactory.Create cfg C type s = Ok (Some p, (f, w)) →
  Forall (fun c => c = DoAddRef (Some p) ∨ c = DoRelease (Some p)) cs →
  run cfg C cs (f, w) = Ok (f1, w1) →
  messages w1 !! p = Some o →
  count_calls (DoAddRef (Some p)) cs - count_calls (DoRelease (Some p)) cs
  = Message.GetRefCount (message_of o) - 1.
Proof.
  destruct s as [f0 w0]. intros Hcreate Hcs Hrun Ho.
  apply Create_inv in Hcreate as ([_ (o0 & Ho0 & Hone & _)] & _).
  unfold Message.GetRefCount.
  rewrite (run_balance cfg C p cs Hcs f w o0 f1 w1 o Ho0 Hrun Ho). lia.
Qed.

Lemma references_balance_witness :
  let C := MacroFactory BaseFactory [(0, DerivedFromMessage)] in
  let s := (MessageFactory.ctor 1 3,
            {| messages := ∅; answers := [Some 5%positive]; calls := [] |}) in
  let f := MessageFactory.set_allocated_messages {[ 5%positive := 1 ]}
             (MessageFactory.ctor 1 3) in
  let w := {| messages := {[ 5%positive := PlainObject (Message.ctor 0) ]};
              answers := [];
              calls := [CallAllocate 1 (Some 5%positive)] |} in
  let cs := [DoAddRef (Some 5%positive); DoAddRef (Some 5%positive);
             DoRelease (Some 5%positive); DoAddRef (Some 5%positive)] in
  let o := PlainObject (Message.set_refCount 3 (Message.ctor 0)) in
  let w1 := {| messages := {[ 5%positive := o ]};
               answers := [];
               calls := [CallAllocate 1 (Some 5%positive)] |} in
  MessageFactory.Create debug_build C 0 s = Ok (Some 5%positive, (f, w))
  ∧ run debug_build C cs (f, w) = Ok (f, w1)
  ∧ messages w1 !! 5%positive = Some o
  ∧ count_calls (DoAddRef (Some 5%positive)) cs
    - count_calls (DoRelease (Some 5%positive)) cs
    = Message.GetRefCount (message_of o) - 1.
Proof.
  intros C s f w cs o w1.
  assert (MessageFactory.Create debug_build C 0 s
          = Ok (Some 5%positive, (f, w))) as Hcreate by (by vm_compute).
  assert (run debug_build C cs (f, w) = Ok (f, w1)) as Hrun
    by (by vm_compute).
  assert (messages w1 !! 5%positive = Some o) as Ho by reflexivity.
  split_and!; [done.. |].
  apply (references_balance debug_build C 0 s 5%positive f w cs f w1 o
           Hcreate); [| done | done].
  repeat first [ apply Forall_nil_2
               | apply Forall_cons_2; [(by left) || (by right) |] ].
Defined.

(** ** The error level *)

Lemma step_keeps_error cfg C c f w f1 w1 :
  step cfg C c (f, w) = Ok (f1, w1) →
  c ≠ DoClearError →
  MessageFactory.m_error f = MESSAGE_FACTORY_ERROR_FAILED_TO_ALLOCATE_MESSAGE →
  MessageFactory.m_error f1 = MESSAGE_FACTORY_ERROR_FAILED_TO_ALLOCATE_MESSAGE.
Proof.
  intros Hstep Hc Herr. destruct c as [type | message | message |].
  - simpl in Hstep. bind_inv Hstep as [r [f2 w2]] Hcreate.
    simpl in Hstep. simplify_eq.
    apply Create_inv in Hcreate as (_ & _ & _ & Herr1).
    rewrite Herr1. by destruct r.
  - apply (AddRef_inv cfg message) in Hstep as [-> _]. done.
  - apply (Release_inv cfg message) in Hstep as (Herr1 & _). congruence.
  - done.
Qed.

Lemma run_keeps_error cfg C cs :
  DoClearError ∉ cs →
  ∀ f w f1 w1,
    run cfg C cs (f, w) = Ok (f1, w1) →
    MessageFactory.m_error f
    = MESSAGE_FACTORY_ERROR_FAILED_TO_ALLOCATE_MESSAGE →
    MessageFactory.m_error f1
    = MESSAGE_FACTORY_ERROR_FAILED_TO_ALLOCATE_MESSAGE.
Proof.
  induction cs as [| c rest IH]; intros Hnot f w f1 w1 Hrun Herr.
  - simpl in Hrun. by simplify_eq.
  - apply not_elem_of_cons in Hnot as [Hc Hrest].
    rewrite run_cons in Hrun. bind_inv Hrun as [f2 w2] Hstep.
    eapply IH; [done | done |]. by eapply step_keeps_error.
Qed.

(** C4: the error level is sticky.  Once a Create has failed, GetError()
    is FAILED_TO_ALLOCATE_MESSAGE, and it still is after any sequence of
    later calls on the factory (successful Create calls among them) in
    which there is no ClearError(); ClearError() puts it back to NONE. *)
Theorem error_level_is_sticky cfg C type s f w cs f1 w1 :
  MessageFactory.Create cfg C type s = Ok (NULL, (f, w)) →
  DoClearError ∉ cs →
  run cfg C cs (f, w) = Ok (f1, w1) →
  MessageFactory.GetError f = MESSAGE_FACTORY_ERROR_FAILED_TO_ALLOCATE_MESSAGE
  ∧ MessageFactory.GetError f1
    = MESSAGE_FACTORY_ERROR_FAILED_TO_ALLOCATE_MESSAGE
  ∧ MessageFactory.GetError (MessageFactory.ClearError f1)
    = MESSAGE_FACTORY_ERROR_NONE.
Proof.
  destruct s as [f0 w0]. intros Hcreate Hnot Hrun.
  apply Create_inv in Hcreate as (_ & _ & _ & Herr).
  unfold MessageFactory.GetError. split_and!; [done | | done].
  by eapply run_keeps_error.
Qed.

Lemma error_level_is_sticky_witness :
  let C := MacroFactory BaseFactory [(0, DerivedFromMessage)] in
  let s := (MessageFactory.ctor 1 3,
            {| messages := ∅;
               answers := [NULL; Some 5%positive; Some 6%positive];
               calls := [] |}) in
  let f := MessageFactory.set_error
             MESSAGE_FACTORY_ERROR_FAILED_TO_ALLOCATE_MESSAGE
             (MessageFactory.ctor 1 3) in
  let w := {| messages := ∅;
              answers := [Some 5%positive; Some 6%positive];
              calls := [CallAllocate 1 NULL] |} in
  let cs := [DoCreate 0; DoAddRef (Some 5%positive); DoCreate 0] in
  MessageFactory.Create debug_build C 0 s = Ok (NULL, (f, w))
  ∧ (DoClearError ∉ cs)
  ∧ (∃ f1 w1,
       run debug_build C cs (f, w) = Ok (f1, w1)
       ∧ dom (messages w1) = {[ 5%positive; 6%positive ]}
       ∧ MessageFactory.GetError f1
         = MESSAGE_FACTORY_ERROR_FAILED_TO_ALLOCATE_MESSAGE
       ∧ MessageFactory.GetError (MessageFactory.ClearError f1)
         = MESSAGE_FACTORY_ERROR_NONE).
Proof.
  intros C s f w cs.
  assert (MessageFactory.Create debug_build C 0 s = Ok (NULL, (f, w)))
    as Hcreate by (by vm_compute).
  assert (DoClearError ∉ cs) as Hnot.
  { unfold cs. rewrite !not_elem_of_cons. split_and!; try done.
    apply not_elem_of_nil. }
  split_and!; [done | done |].
  destruct (run debug_build C cs (f, w)) as [[f1 w1] | |] eqn:Hrun;
    [| by vm_compute in Hrun..].
  exists f1, w1. split; [done |]. split.
  - vm_compute in Hrun. injection Hrun as <- <-. by vm_compute.
  - exact (proj2 (error_level_is_sticky debug_build C 0 s f w cs f1 w1
                    Hcreate Hnot Hrun)).
Defined.

(** ** Null handles *)

(** C7 (amended): AddRef and Release of the factory called with a null
    handle touch neither the factory nor any message.  Built with
    assertions compiled out they return with the state unchanged; built
    with assertions they stop at [assert( message )]. *)
Theorem null_handle cfg s :
  if assertions cfg
  then MessageFactory.AddRef cfg NULL s = AssertionFailed
       ∧ MessageFactory.Release cfg NULL s = AssertionFailed
  else null_safe cfg s.
Proof.
  destruct s as [f w]. unfold null_safe. simpl. unfold assert_.
  by destruct (assertions cfg).
Qed.

(** C7 as stated fails in a build with assertions: AddRef( NULL ) and
    Release( NULL ) do not return, they fail [assert( message )]. *)
Lemma null_handle_asserts :
  let s := (MessageFactory.ctor 1 3,
            {| messages := ∅; answers := []; calls := [] |}) in
  MessageFactory.AddRef debug_build NULL s = AssertionFailed
  ∧ MessageFactory.Release debug_build NULL s = AssertionFailed
  ∧ ¬ null_safe debug_build s.
Proof.
  intros s. split_and!; [done | done |]. by intros [Haddref _].
Qed.


(** ** Live factories *)

Lemma ctor_constructed allocator numTypes :
  MessageFactory.constructed (MessageFactory.ctor allocator numTypes).
Proof. by exists allocator. Qed.

Lemma step_constructed cfg C c f w f1 w1 :
  step cfg C c (f, w) = Ok (f1, w1) →
  MessageFactory.constructed f → MessageFactory.constructed f1.
Proof.
  unfold MessageFactory.constructed. intros Hstep Hf.
  destruct c as [type | message | message |].
  - simpl in Hstep. bind_inv Hstep as [r [f2 w2]] Hcreate.
    simpl in Hstep. simplify_eq.
    apply Create_inv in Hcreate as (_ & Hall & _). by rewrite Hall.
  - apply (AddRef_inv cfg message) in Hstep as [-> _]. done.
  - apply (Release_inv cfg message) in Hstep as (_ & Hall & _).
    by rewrite Hall.
  - simpl in Hstep. by simplify_eq.
Qed.

Lemma run_constructed cfg C cs :
  ∀ f w f1 w1,
    run cfg C cs (f, w) = Ok (f1, w1) →
    MessageFactory.constructed f → MessageFactory.constructed f1.
Proof.
  induction cs as [| c rest IH]; intros f w f1 w1 Hrun Hf.
  - simpl in Hrun. by simplify_eq.
  - rewrite run_cons in Hrun. bind_inv Hrun as [f2 w2] Hstep.
    eapply IH; [done |]. by eapply step_constructed.
Qed.

(** ** Scenarios *)

(** A factory of three types: Create( 0 ) gives a message of count 1,
    AddRef takes the count to 2, Release back to 1, and the second Release
    destroys the message: the store and the leak audit are empty again and
    the memory went back to the allocator of the factory. *)
Example scenario_last_release_destroys :
  let C := MacroFactory BaseFactory
             [(0, DerivedFromMessage); (1, DerivedFromBlockMessage);
              (2, DerivedFromMessage)] in
  let s := (MessageFactory.ctor 1 3,
            {| messages := ∅; answers := [Some 5%positive]; calls := [] |}) in
  let p := Some 5%positive in
  let count cs :=
    s1 ← run debug_build C cs s; MessageFactory.refCount_at 5 s1.2 in
  count [DoCreate 0] = Ok 1
  ∧ count [DoCreate 0; DoAddRef p] = Ok 2
  ∧ count [DoCreate 0; DoAddRef p; DoRelease p] = Ok 1
  ∧ run debug_build C [DoCreate 0; DoAddRef p; DoRelease p; DoRelease p] s
    = Ok (MessageFactory.ctor 1 3,
          {| messages := ∅;
             answers := [];
             calls := [CallFree 1 5; CallAllocate 1 (Some 5%positive)] |}).
Proof. split_and!; by vm_compute. Qed.

(** With assertions compiled out a Release at count 0 is not stopped: the
    count goes to -1 and the message is not destroyed. *)
Example scenario_release_at_zero_unchecked :
  let o := PlainObject (Message.set_refCount 0 (Message.ctor 0)) in
  let w := {| messages := {[ 5%positive := o ]}; answers := []; calls := [] |} in
  let f := MessageFactory.ctor 1 3 in
  MessageFactory.Release release_build (Some 5%positive) (f, w)
  = Ok (f, {| messages :=
                {[ 5%positive :=
                     PlainObject (Message.set_refCount (-1) (Message.ctor 0)) ]};
              answers := [];
              calls := [] |})
  ∧ MessageFactory.Release debug_build (Some 5%positive) (f, w)
    = AssertionFailed.
Proof. split; by vm_compute. Qed.

(** X18: the type of a message is kept modulo 2^15, whatever the type
    asked for: a message that Create( type ) returns answers GetType()
    with type mod 32768. *)
Lemma Create_type_field cfg C type f w p f1 w1 :
  MessageFactory.Create cfg C type (f, w) = Ok (Some p, (f1, w1)) →
  ∃ o, messages w1 !! p = Some o
       ∧ Message.GetType (message_of o) = type mod 32768.
Proof.
  intros ([_ (o & Ho & _ & Htag)] & _)%Create_inv. eauto.
Qed.


(** * Further properties of the header *)

(** ** Create *)

(** X1: built with assertions, Create with a type outside [0, numTypes)
    stops at its range assertions, whatever the class of the factory and
    the state of the allocator: nothing is created and nothing allocated. *)
Theorem Create_type_out_of_range cfg C type f w :
  assertions cfg = true →
  ¬ (0 ≤ type < MessageFactory.GetNumTypes f) →
  MessageFactory.Create cfg C type (f, w) = AssertionFailed.
Proof.
  intros Hassert Hout. unfold MessageFactory.GetNumTypes in Hout.
  unfold MessageFactory.Create, assert_. rewrite Hassert.
  destruct (Z.leb_spec 0 type) as [H0 | H0]; [| done]. simpl.
  destruct (Z.ltb_spec type (MessageFactory.m_numTypes f)) as [Hn | Hn];
    [lia | done].
Qed.

Lemma Create_type_out_of_range_witness :
  let C := MacroFactory BaseFactory [(3, DerivedFromMessage)] in
  let f := MessageFactory.ctor 1 3 in
  let w := {| messages := ∅; answers := [Some 7%positive]; calls := [] |} in
  ¬ (0 ≤ 3 < MessageFactory.GetNumTypes f)
  ∧ MessageFactory.Create debug_build C 3 (f, w) = AssertionFailed
  ∧ MessageFactory.Create debug_build C (-1) (f, w) = AssertionFailed.
Proof.
  intros C f w.
  assert (¬ (0 ≤ 3 < MessageFactory.GetNumTypes f)) as H3 by (simpl; lia).
  assert (¬ (0 ≤ -1 < MessageFactory.GetNumTypes f)) as H1 by (simpl; lia).
  split_and!; [done | |].
  - exact (Create_type_out_of_range debug_build C 3 f w eq_refl H3).
  - exact (Create_type_out_of_range debug_build C (-1) f w eq_refl H1).
Defined.

Lemma YOJIMBO_NEW_effect a c w r w1 :
  YOJIMBO_NEW a c w = (r, w1) →
  calls w1 = CallAllocate a r :: calls w
  ∧ answers w1 = tail (answers w)
  ∧ messages w1
    = match r with
      | Some p => <[p := construct c]> (messages w)
      | None => messages w
      end.
Proof.
  unfold YOJIMBO_NEW, Allocate.
  destruct (answers w) as [| [p |] rest] eqn:Hanswers; simpl;
    intros [= <- <-]; simpl; rewrite ?Hanswers; by split_and!.
Qed.

Lemma GetAllocator_Ok cfg f a :
  MessageFactory.GetAllocator cfg f = Ok a →
  MessageFactory.m_allocator f = Some a.
Proof.
  unfold MessageFactory.GetAllocator. intros H. bind_inv H as [] _.
  destruct (MessageFactory.m_allocator f); congruence.
Qed.

(** What one CreateInternal adds to the world. *)
Lemma CreateInternal_effect cfg C f type w r w1 :
  MessageFactory.CreateInternal cfg C f type w = Ok (r, w1) →
  (∃ new, calls w1 = new ++ calls w
          ∧ ∀ c, c ∈ new →
                 ∃ a res, c = CallAllocate a res
                          ∧ MessageFactory.m_allocator f = Some a)
  ∧ answers w1 `suffix_of` answers w
  ∧ match r with
    | None => messages w1 = messages w
    | Some p =>
        ∃ c, messages w1 = <[p := created_object c type]> (messages w)
    end.
Proof.
  revert w r w1. induction C as [| B IH cases]; intros w r w1; simpl.
  - intros [= <- <-]. split_and!; [| done | done].
    exists []. split; [done |]. by intros c Hc%elem_of_nil.
  - intros H. bind_inv H as [r0 w0] Hbase.
    apply IH in Hbase as ((new0 & Hcalls0 & Hnew0) & Hsuffix0 & Hstore0).
    destruct r0 as [p |]; [by simplify_eq; eauto |].
    bind_inv H as a Ha. apply GetAllocator_Ok in Ha.
    destruct (switch type cases) as [[mt mc] |] eqn:Hsw;
      [| by simplify_eq; eauto].
    apply switch_Some in Hsw as ->.
    destruct (YOJIMBO_NEW a mc w0) as [r2 w2] eqn:Hnew.
    apply YOJIMBO_NEW_effect in Hnew as (Hcalls2 & Hanswers2 & Hstore2).
    assert (∃ new, calls w2 = new ++ calls w
                   ∧ ∀ c, c ∈ new →
                          ∃ a res, c = CallAllocate a res
                                   ∧ MessageFactory.m_allocator f = Some a)
      as Hallocs.
    { exists (CallAllocate a r2 :: new0). rewrite Hcalls2, Hcalls0.
      split; [done |]. intros c [-> | Hc]%elem_of_cons; eauto. }
    assert (answers w2 `suffix_of` answers w) as Hsuffix.
    { rewrite Hanswers2. etrans; [| exact Hsuffix0].
      destruct (answers w0) as [| x rest]; [done |]. by apply suffix_cons_r. }
    destruct r2 as [p |].
    + bind_inv H as w3 Hset. injection H as <- <-.
      unfold MessageFactory.SetMessageType in Hset.
      apply invoke_inv in Hset as (o & m & Ho & Hm & ->).
      rewrite Hstore2, lookup_insert_eq in Ho.
      injection Ho as <-. injection Hm as <-. simpl.
      split_and!; [done | done |]. exists mc.
      by rewrite Hstore2, insert_insert_eq, Hstore0.
    + injection H as <- <-. split_and!; [done | done |]. congruence.
Qed.

Lemma frees_allocations new old :
  (∀ c, c ∈ new → ∃ a res, c = CallAllocate a res) →
  frees (new ++ old) = frees old.
Proof.
  intros Hnew. unfold frees. rewrite omap_app.
  induction new as [| c rest IH]; [done |].
  destruct (Hnew c) as (a & res & ->); [by left |]. simpl.
  apply IH. intros c Hc. apply Hnew. by right.
Qed.

(** The store and the audit after a returning Create. *)
Lemma Create_store cfg C type f w r f1 w1 :
  MessageFactory.Create cfg C type (f, w) = Ok (r, (f1, w1)) →
  match r with
  | None =>
      messages w1 = messages w
      ∧ MessageFactory.allocated_messages f1
        = MessageFactory.allocated_messages f
  | Some p =>
      (∃ c, messages w1 = <[p := created_object c type]> (messages w))
      ∧ (YOJIMBO_DEBUG_MESSAGE_LEAKS cfg = true →
         MessageFactory.allocated_messages f1
         = <[p := 1]> (MessageFactory.allocated_messages f))
  end.
Proof.
  unfold MessageFactory.Create. intros H.
  bind_inv H as [] _. bind_inv H as [] _. bind_inv H as [r0 w0] Hint.
  apply CreateInternal_effect in Hint as (_ & _ & Hstore).
  destruct r0 as [p |].
  - destruct (YOJIMBO_DEBUG_MESSAGE_LEAKS cfg) eqn:Hleaks.
    + bind_inv H as [] _. injection H as <- <- <-. by split.
    + injection H as <- <- <-. by split.
  - injection H as <- <- <-. by split.
Qed.

(** X2: what a returning Create does to the world.  Every call it makes
    on an allocator is an Allocate on the allocator of the factory, so it
    frees nothing; it only takes answers from the front of those the
    allocator has in store.  When it returns null the message store and
    the leak audit are as before.  When it returns a message, the store is
    the old one with a default constructed object of a declared class, its
    type set, at the returned address (every other handle is untouched),
    the error level is as before, and a build with the leak audit has
    entered the message in the audit. *)
Theorem Create_effect cfg C type f w r f1 w1 :
  MessageFactory.Create cfg C type (f, w) = Ok (r, (f1, w1)) →
  (∃ new, calls w1 = new ++ calls w
          ∧ ∀ c, c ∈ new →
                 ∃ a res, c = CallAllocate a res
                          ∧ MessageFactory.m_allocator f = Some a)
  ∧ frees (calls w1) = frees (calls w)
  ∧ answers w1 `suffix_of` answers w
  ∧ match r with
    | None =>
        messages w1 = messages w
        ∧ MessageFactory.allocated_messages f1
          = MessageFactory.allocated_messages f
    | Some p =>
        (∃ c, messages w1 = <[p := created_object c type]> (messages w))
        ∧ MessageFactory.GetError f1 = MessageFactory.GetError f
        ∧ (YOJIMBO_DEBUG_MESSAGE_LEAKS cfg = true →
           MessageFactory.allocated_messages f1
           = <[p := 1]> (MessageFactory.allocated_messages f))
        ∧ (YOJIMBO_DEBUG_MESSAGE_LEAKS cfg = false → f1 = f)
    end.
Proof.
  unfold MessageFactory.Create. intros H.
  bind_inv H as [] _. bind_inv H as [] _. bind_inv H as [r0 w0] Hint.
  apply CreateInternal_effect in Hint as (Hnew & Hsuffix & Hstore).
  assert (frees (calls w0) = frees (calls w)) as Hfrees.
  { destruct Hnew as (new & -> & Hnew). apply frees_allocations.
    intros c Hc. destruct (Hnew c Hc) as (a & res & -> & _). eauto. }
  destruct r0 as [p |].
  - destruct (YOJIMBO_DEBUG_MESSAGE_LEAKS cfg) eqn:Hleaks.
    + bind_inv H as [] _. injection H as <- <- <-.
      split_and!; done.
    + injection H as <- <- <-. split_and!; done.
  - injection H as <- <- <-. split_and!; done.
Qed.

Lemma Create_effect_witness :
  let C := MacroFactory
             (MacroFactory BaseFactory [(0, DerivedFromBlockMessage)])
             [(0, DerivedFromMessage); (1, DerivedFromMessage)] in
  let f := MessageFactory.ctor 1 2 in
  let w := {| messages := ∅;
              answers := [NULL; Some 7%positive; Some 8%positive];
              calls := [CallFree 2 9] |} in
  let f1 := MessageFactory.set_allocated_messages {[ 7%positive := 1 ]} f in
  let w1 := {| messages := {[ 7%positive := created_object DerivedFromMessage 0 ]};
               answers := [Some 8%positive];
               calls := [CallAllocate 1 (Some 7%positive);
                         CallAllocate 1 NULL; CallFree 2 9] |} in
  MessageFactory.Create debug_build C 0 (f, w) = Ok (Some 7%positive, (f1, w1))
  ∧ frees (calls w1) = frees (calls w)
  ∧ answers w1 `suffix_of` answers w.
Proof.
  intros C f w f1 w1.
  assert (MessageFactory.Create debug_build C 0 (f, w)
          = Ok (Some 7%positive, (f1, w1))) as Hcreate by (by vm_compute).
  split; [done |].
  pose proof (Create_effect debug_build C 0 f w (Some 7%positive) f1 w1
                Hcreate) as (_ & Hfrees & Hsuffix & _).
  done.
Defined.

(** ** The effect of AddRef and Release *)

Lemma update_message_update m1 m2 o :
  update_message m2 (update_message m1 o) = update_message m2 o.
Proof. by destruct o. Qed.

Lemma update_message_id o : update_message (message_of o) o = o.
Proof. destruct o as [m | b]; [done |]. by destruct b. Qed.

Lemma set_refCount_id m : Message.set_refCount (Message.m_refCount m) m = m.
Proof. by destruct m. Qed.

Lemma set_refCount_twice n1 n2 m :
  Message.set_refCount n2 (Message.set_refCount n1 m)
  = Message.set_refCount n2 m.
Proof. done. Qed.

Lemma same_but_count_refl o : same_but_count o o.
Proof.
  unfold same_but_count. by rewrite set_refCount_id, update_message_id.
Qed.

Lemma same_but_count_update n o :
  same_but_count o
    (update_message (Message.set_refCount n (message_of o)) o).
Proof.
  unfold same_but_count. by rewrite message_of_update.
Qed.

Lemma same_but_count_trans o1 o2 o3 :
  same_but_count o1 o2 → same_but_count o2 o3 → same_but_count o1 o3.
Proof.
  unfold same_but_count.
  destruct o1 as [m1 | b1], o2 as [m2 | b2], o3 as [m3 | b3]; simpl;
    intros H12 H23; try done.
  - injection H12 as H12. by rewrite H12 in H23.
  - injection H12 as H12. by rewrite H12 in H23.
Qed.

Lemma block_frees_update m o : block_frees (update_message m o) = block_frees o.
Proof. by destruct o. Qed.

Lemma destroy_calls cfg o w w1 :
  destroy cfg o w = Ok w1 →
  calls w1 = block_frees o ++ calls w
  ∧ answers w1 = answers w
  ∧ messages w1 = messages w.
Proof.
  destruct o as [m | b]; simpl.
  - intros H. bind_inv H as [] _. by injection H as <-.
  - unfold BlockMessage_dtor.
    destruct (BlockMessage.m_allocator b) as [a |];
      [destruct (BlockMessage.m_blockData b) as [d |] |]; simpl;
      intros H; bind_inv H as [] _; by injection H as <-.
Qed.

Lemma AddRef_live cfg f w p o :
  messages w !! p = Some o →
  MessageFactory.AddRef cfg (Some p) (f, w)
  = if Message.m_refCount (message_of o) <? INT_MAX
    then Ok (f, set_messages
                  (<[p := update_message
                            (Message.set_refCount
                               (Message.m_refCount (message_of o) + 1)
                               (message_of o)) o]> (messages w)) w)
    else Undefined.
Proof.
  intros Ho. unfold MessageFactory.AddRef.
  rewrite (bool_decide_true (is_Some (Some p))) by eauto.
  rewrite assert_true. simpl. unfold invoke, Message.AddRef. rewrite Ho.
  by destruct (Message.m_refCount (message_of o) <? INT_MAX).
Qed.

Lemma call_on_dead cfg f w p :
  messages w !! p = None →
  MessageFactory.AddRef cfg (Some p) (f, w) = Undefined
  ∧ MessageFactory.Release cfg (Some p) (f, w) = Undefined.
Proof.
  intros Hdead. unfold MessageFactory.AddRef, MessageFactory.Release.
  rewrite (bool_decide_true (is_Some (Some p))) by eauto.
  rewrite assert_true. simpl. unfold invoke. by rewrite Hdead.
Qed.

(** Everything a returning Release of a live handle does. *)
Lemma Release_effect cfg f w p f1 w1 :
  MessageFactory.Release cfg (Some p) (f, w) = Ok (f1, w1) →
  ∃ o, messages w !! p = Some o
       ∧ messages w1 = released p o (messages w)
       ∧ answers w1 = answers w
       ∧ if Message.m_refCount (message_of o) =? 1
         then (∃ a, MessageFactory.m_allocator f = Some a
                    ∧ calls w1 = CallFree a p :: block_frees o ++ calls w)
              ∧ f1 = (if YOJIMBO_DEBUG_MESSAGE_LEAKS cfg
                      then MessageFactory.set_allocated_messages
                             (delete p (MessageFactory.allocated_messages f)) f
                      else f)
         else calls w1 = calls w ∧ f1 = f.
Proof.
  unfold MessageFactory.Release. intros H. bind_inv H as [] _.
  bind_inv H as wr Hinvoke.
  apply invoke_inv in Hinvoke as (o & m & Ho & Hm & ->).
  apply Release_Ok in Hm as ->. bind_inv H as n Hn.
  unfold MessageFactory.refCount_at in Hn. simpl in Hn.
  rewrite lookup_insert_eq, message_of_update in Hn. simpl in Hn.
  injection Hn as <-. exists o. split; [done |]. unfold released.
  destruct (Z.eqb_spec (Message.m_refCount (message_of o)) 1) as [H1 | H1].
  - replace (Message.m_refCount (message_of o) - 1 =? 0) with true in *
      by (symmetry; lia).
    bind_inv H as f2 Haudit. bind_inv H as [] _.
    assert (f2 = (if YOJIMBO_DEBUG_MESSAGE_LEAKS cfg
                  then MessageFactory.set_allocated_messages
                         (delete p (MessageFactory.allocated_messages f)) f
                  else f)) as Hf2.
    { destruct (YOJIMBO_DEBUG_MESSAGE_LEAKS cfg);
        [bind_inv Haudit as [] _ |]; congruence. }
    assert (MessageFactory.m_allocator f2 = MessageFactory.m_allocator f)
      as Hsame by (rewrite Hf2; by destruct (YOJIMBO_DEBUG_MESSAGE_LEAKS cfg)).
    destruct (MessageFactory.m_allocator f2) as [a |] eqn:Ha; [| done].
    bind_inv H as w2 Hdelete. injection H as <- <-.
    unfold YOJIMBO_DELETE in Hdelete. simpl in Hdelete.
    rewrite lookup_insert_eq in Hdelete. bind_inv Hdelete as w3 Hdestroy.
    apply destroy_calls in Hdestroy as (Hcalls & Hanswers & Hstore).
    injection Hdelete as <-. simpl. rewrite Hstore, Hanswers, Hcalls. simpl.
    rewrite delete_insert_eq, block_frees_update.
    split_and!; [done | done | | done]. exists a. by rewrite <- Hsame.
  - replace (Message.m_refCount (message_of o) - 1 =? 0) with false in *
      by (symmetry; lia).
    injection H as <- <-. by split_and!.
Qed.

(** After a call that is not a Create, every live message was already
    live, and is the same but for its count, which is an int if it changed
    upwards and not zero if it changed downwards. *)
Lemma step_live cfg C c f w f1 w1 q o1 :
  not_Create c →
  step cfg C c (f, w) = Ok (f1, w1) →
  messages w1 !! q = Some o1 →
  ∃ o, messages w !! q = Some o
       ∧ same_but_count o o1
       ∧ (Message.m_refCount (message_of o1) = Message.m_refCount (message_of o)
          ∨ (Message.m_refCount (message_of o1)
             = Message.m_refCount (message_of o) + 1
             ∧ Message.m_refCount (message_of o) < INT_MAX)
          ∨ (Message.m_refCount (message_of o1)
             = Message.m_refCount (message_of o) - 1
             ∧ Message.m_refCount (message_of o) ≠ 1)).
Proof.
  intros Hc Hstep Hq. destruct c as [type | [p |] | [p |] |]; [done | ..].
  - change (MessageFactory.AddRef cfg (Some p) (f, w) = Ok (f1, w1)) in Hstep.
    destruct (messages w !! p) as [o |] eqn:Ho;
      [| by rewrite (proj1 (call_on_dead cfg f w p Ho)) in Hstep].
    rewrite (AddRef_live cfg f w p o Ho) in Hstep.
    destruct (Z.ltb_spec (Message.m_refCount (message_of o)) INT_MAX);
      [| done].
    injection Hstep as <- <-. simpl in Hq. rewrite lookup_insert in Hq.
    case_decide as Hpq.
    + subst q. injection Hq as <-. exists o. split; [done |].
      split; [apply same_but_count_update |].
      rewrite message_of_update. simpl. auto.
    + exists o1. eauto using same_but_count_refl.
  - change (MessageFactory.AddRef cfg None (f, w) = Ok (f1, w1)) in Hstep.
    apply AddRef_inv in Hstep as [_ ->].
    exists o1. eauto using same_but_count_refl.
  - change (MessageFactory.Release cfg (Some p) (f, w) = Ok (f1, w1))
      in Hstep.
    apply Release_effect in Hstep as (o & Ho & Hstore & _).
    rewrite Hstore, (released_lookup _ _ _ _ Ho) in Hq.
    case_decide as Hpq.
    + subst q.
      destruct (Z.eqb_spec (Message.m_refCount (message_of o)) 1); [done |].
      injection Hq as <-. exists o. split; [done |].
      split; [apply same_but_count_update |].
      rewrite message_of_update. simpl. auto.
    + exists o1. eauto using same_but_count_refl.
  - change (MessageFactory.Release cfg None (f, w) = Ok (f1, w1)) in Hstep.
    apply Release_inv in Hstep as (_ & _ & -> & _).
    exists o1. eauto using same_but_count_refl.
  - simpl in Hstep. injection Hstep as <- <-.
    exists o1. eauto using same_but_count_refl.
Qed.

(** ** Invariants of the message store *)

Lemma step_Create_store cfg C type f w f1 w1 q o1 :
  step cfg C (DoCreate type) (f, w) = Ok (f1, w1) →
  messages w1 !! q = Some o1 →
  messages w !! q = Some o1 ∨ ∃ c, o1 = created_object c type.
Proof.
  simpl. intros H Hq. bind_inv H as [r [f2 w2]] Hcreate.
  simpl in H. injection H as <- <-.
  apply Create_store in Hcreate as Hr.
  destruct r as [p |].
  - destruct Hr as [[c Hstore] _]. rewrite Hstore, lookup_insert in Hq.
    case_decide; [| by left]. right. exists c. congruence.
  - destruct Hr as [Hstore _]. left. by rewrite <- Hstore.
Qed.

(** A property of objects that holds of every object as created, and that
    the changes of count made by AddRef and Release keep, holds of every
    live message after a run if it held before. *)
Lemma run_invariant (P : Object → Prop) cfg C :
  (∀ c type, P (created_object c type)) →
  (∀ o o1,
      P o → same_but_count o o1 →
      Message.m_refCount (message_of o1) = Message.m_refCount (message_of o)
      ∨ (Message.m_refCount (message_of o1)
         = Message.m_refCount (message_of o) + 1
         ∧ Message.m_refCount (message_of o) < INT_MAX)
      ∨ (Message.m_refCount (message_of o1)
         = Message.m_refCount (message_of o) - 1
         ∧ Message.m_refCount (message_of o) ≠ 1) →
      P o1) →
  ∀ cs f w f1 w1,
    run cfg C cs (f, w) = Ok (f1, w1) →
    (∀ p o, messages w !! p = Some o → P o) →
    ∀ p o, messages w1 !! p = Some o → P o.
Proof.
  intros Hnew Hkeep. induction cs as [| c rest IH]; intros f w f1 w1 Hrun Hw.
  - simpl in Hrun. by simplify_eq.
  - rewrite run_cons in Hrun. bind_inv Hrun as [f2 w2] Hstep.
    apply (IH f2 w2 f1 w1 Hrun). intros q o2 Hq.
    destruct c as [type | message | message |].
    + destruct (step_Create_store _ _ _ _ _ _ _ _ _ Hstep Hq)
        as [Hold | [c ->]]; eauto.
    + destruct (step_live cfg C (DoAddRef message) f w f2 w2 q o2 I Hstep Hq)
        as (o & Ho & Hsame & Hcount). eauto.
    + destruct (step_live cfg C (DoRelease message) f w f2 w2 q o2 I Hstep Hq)
        as (o & Ho & Hsame & Hcount). eauto.
    + destruct (step_live cfg C DoClearError f w f2 w2 q o2 I Hstep Hq)
        as (o & Ho & Hsame & Hcount). eauto.
Qed.



(** X4: reference counts stay in range.  If every live message has a
    count between 1 and INT_MAX before a sequence of factory calls, so it
    has after it, in every build: a message whose count would fall to 0 is
    destroyed in the same call, so no live message is ever unheld. *)
Theorem live_counts_in_range cfg C cs f w f1 w1 :
  counts_in_range w →
  run cfg C cs (f, w) = Ok (f1, w1) →
  counts_in_range w1.
Proof.
  intros Hw Hrun.
  refine (run_invariant
            (fun o => 1 ≤ Message.m_refCount (message_of o) ≤ INT_MAX) cfg C
            _ _ cs f w f1 w1 Hrun Hw).
  - intros [] type; simpl; unfold INT_MAX; lia.
  - intros o o1 Ho _ [-> | [[-> Hmax] | [-> Hone]]]; lia.
Qed.

Lemma live_counts_in_range_witness :
  let C := MacroFactory BaseFactory [(0, DerivedFromMessage)] in
  let f := MessageFactory.ctor 1 1 in
  let w := {| messages := ∅; answers := [Some 5%positive]; calls := [] |} in
  let cs := [DoCreate 0; DoAddRef (Some 5%positive);
             DoRelease (Some 5%positive)] in
  counts_in_range w
  ∧ ∃ f1 w1, run debug_build C cs (f, w) = Ok (f1, w1)
             ∧ is_Some (messages w1 !! 5%positive)
             ∧ counts_in_range w1.
Proof.
  intros C f w cs.
  assert (counts_in_range w) as Hw.
  { intros p o Hp. unfold w in Hp. simpl in Hp.
    by rewrite lookup_empty in Hp. }
  split; [done |].
  destruct (run debug_build C cs (f, w)) as [[f1 w1] | |] eqn:Hrun;
    [| by vm_compute in Hrun..].
  exists f1, w1. split; [done |]. split.
  - vm_compute in Hrun. injection Hrun as <- <-. eexists. reflexivity.
  - exact (live_counts_in_range debug_build C cs f w f1 w1 Hw Hrun).
Defined.

(** ** The leak audit and the destructor of the factory *)

Lemma step_audit_exact cfg C c f w f1 w1 :
  YOJIMBO_DEBUG_MESSAGE_LEAKS cfg = true →
  step cfg C c (f, w) = Ok (f1, w1) →
  audit_exact f w → audit_exact f1 w1.
Proof.
  unfold audit_exact. intros Hleaks Hstep Hexact.
  destruct c as [type | [p |] | [p |] |].
  - simpl in Hstep. bind_inv Hstep as [r [f2 w2]] Hcreate.
    simpl in Hstep. injection Hstep as <- <-.
    apply Create_store in Hcreate as Hr.
    destruct r as [p |].
    + destruct Hr as ([c Hstore] & Haudit).
      by rewrite Hstore, (Haudit Hleaks), !dom_insert_L, Hexact.
    + destruct Hr as [-> ->]. done.
  - apply (AddRef_inv cfg (Some p)) in Hstep as (-> & o & Ho & ->).
    rewrite dom_insert_L, Hexact. apply elem_of_dom_2 in Ho.
    symmetry. apply subseteq_union_1_L. by apply singleton_subseteq_l.
  - apply (AddRef_inv cfg None) in Hstep as [-> ->]. done.
  - apply Release_effect in Hstep as (o & Ho & -> & _ & Hlast).
    unfold released.
    destruct (Z.eqb_spec (Message.m_refCount (message_of o)) 1) as [H1 | H1].
    + replace (Message.m_refCount (message_of o) - 1 =? 0) with true
        by (symmetry; lia).
      destruct Hlast as [_ ->]. rewrite Hleaks. simpl.
      by rewrite !dom_delete_L, Hexact.
    + replace (Message.m_refCount (message_of o) - 1 =? 0) with false
        by (symmetry; lia).
      destruct Hlast as [_ ->]. rewrite dom_insert_L, Hexact.
      apply elem_of_dom_2 in Ho.
      symmetry. apply subseteq_union_1_L. by apply singleton_subseteq_l.
  - apply (Release_inv cfg None) in Hstep as (_ & _ & -> & ->). done.
  - simpl in Hstep. by injection Hstep as <- <-.
Qed.

(** X5: in a build with the leak audit, the audit follows the store.  If
    the keys of allocated_messages are exactly the live messages before a
    sequence of factory calls, they are after it: Create enters a message,
    the Release that destroys it takes it out, nothing else touches the
    audit. *)
Theorem audit_follows_store cfg C cs f w f1 w1 :
  YOJIMBO_DEBUG_MESSAGE_LEAKS cfg = true →
  audit_exact f w →
  run cfg C cs (f, w) = Ok (f1, w1) →
  audit_exact f1 w1.
Proof.
  intros Hleaks. revert f w.
  induction cs as [| c rest IH]; intros f w Hexact Hrun.
  - simpl in Hrun. by simplify_eq.
  - rewrite run_cons in Hrun. bind_inv Hrun as [f2 w2] Hstep.
    apply (IH f2 w2); [| done]. by eapply step_audit_exact.
Qed.

Lemma audit_follows_store_witness :
  let C := MacroFactory BaseFactory [(0, DerivedFromMessage)] in
  let f := MessageFactory.ctor 1 1 in
  let w := {| messages := ∅;
              answers := [Some 5%positive; Some 6%positive];
              calls := [] |} in
  let cs := [DoCreate 0; DoCreate 0; DoRelease (Some 5%positive)] in
  audit_exact f w
  ∧ ∃ f1 w1, run debug_build C cs (f, w) = Ok (f1, w1)
             ∧ dom (messages w1) = {[ 6%positive ]}
             ∧ audit_exact f1 w1.
Proof.
  intros C f w cs.
  assert (audit_exact f w) as Hexact by (by vm_compute).
  split; [done |].
  destruct (run debug_build C cs (f, w)) as [[f1 w1] | |] eqn:Hrun;
    [| by vm_compute in Hrun..].
  exists f1, w1. split; [done |]. split.
  - vm_compute in Hrun. injection Hrun as <- <-. by vm_compute.
  - exact (audit_follows_store debug_build C cs f w f1 w1 eq_refl Hexact Hrun).
Defined.





(** ** What reference counting changes *)

(** X7: AddRef, Release and ClearError never make a message and never
    alter one beyond its count.  After any sequence of such calls, a live
    message was live before, with the same class, type, id, block flag and
    attached block; only the reference count may differ. *)
Theorem references_change_count_only cfg C cs f w f1 w1 p o1 :
  Forall not_Create cs →
  run cfg C cs (f, w) = Ok (f1, w1) →
  messages w1 !! p = Some o1 →
  ∃ o, messages w !! p = Some o
       ∧ same_but_count o o1
       ∧ Message.GetType (message_of o1) = Message.GetType (message_of o)
       ∧ Message.GetId (message_of o1) = Message.GetId (message_of o)
       ∧ Message.IsBlockMessage (message_of o1)
         = Message.IsBlockMessage (message_of o)
       ∧ block_frees o1 = block_frees o.
Proof.
  intros Hcs Hrun Ho1.
  assert (∃ o, messages w !! p = Some o ∧ same_but_count o o1)
    as (o & Ho & Hsame1).
  { revert f w Hrun. induction Hcs as [| c rest Hc _ IH]; intros f w Hrun.
    - simpl in Hrun. simplify_eq. eauto using same_but_count_refl.
    - rewrite run_cons in Hrun. bind_inv Hrun as [f2 w2] Hstep.
      destruct (IH f2 w2 Hrun) as (o2 & Ho2 & Hsame2).
      destruct (step_live cfg C c f w f2 w2 p o2 Hc Hstep Ho2)
        as (o & Ho & Hsame & _).
      eauto using same_but_count_trans. }
  exists o. split; [done |]. split; [done |].
  unfold same_but_count in Hsame1. rewrite Hsame1.
  rewrite message_of_update, block_frees_update. done.
Qed.

Lemma references_change_count_only_witness :
  let C := BaseFactory in
  let f := MessageFactory.ctor 1 3 in
  let o := BlockObject
             {| BlockMessage.base :=
                  Message.SetId 40 (Message.SetType 2 (Message.ctor 1));
                BlockMessage.m_allocator := Some 2%positive;
                BlockMessage.m_blockData := Some 9%positive;
                BlockMessage.m_blockSize := 64 |} in
  let w := {| messages := {[ 5%positive := o ]}; answers := []; calls := [] |} in
  let cs := [DoAddRef (Some 5%positive); DoAddRef (Some 5%positive);
             DoClearError; DoRelease (Some 5%positive)] in
  Forall not_Create cs
  ∧ ∃ f1 w1 o1,
      run debug_build C cs (f, w) = Ok (f1, w1)
      ∧ messages w1 !! 5%positive = Some o1
      ∧ Message.GetRefCount (message_of o1) = 2
      ∧ ∃ o0, messages w !! 5%positive = Some o0
              ∧ same_but_count o0 o1
              ∧ Message.GetType (message_of o1) = Message.GetType (message_of o0)
              ∧ Message.GetId (message_of o1) = Message.GetId (message_of o0)
              ∧ Message.IsBlockMessage (message_of o1)
                = Message.IsBlockMessage (message_of o0)
              ∧ block_frees o1 = block_frees o0.
Proof.
  intros C f o w cs.
  assert (Forall not_Create cs) as Hcs by (by repeat constructor).
  split; [done |].
  destruct (run debug_build C cs (f, w)) as [[f1 w1] | |] eqn:Hrun;
    [| by vm_compute in Hrun..].
  destruct (messages w1 !! 5%positive) as [o1 |] eqn:Ho1;
    [| vm_compute in Hrun; injection Hrun as <- <-; by vm_compute in Ho1].
  exists f1, w1, o1. split; [done |]. split; [done |]. split.
  - vm_compute in Hrun. injection Hrun as <- <-.
    vm_compute in Ho1. by injection Ho1 as <-.
  - exact (references_change_count_only debug_build C cs f w f1 w1
             5%positive o1 Hcs Hrun Ho1).
Defined.

Lemma bind_Ok {A B} (a : A) (k : A → Outcome B) : Ok a ≫= k = k a.
Proof. reflexivity. Qed.

(** X8: AddRef followed by Release of the same message, on a message held
    at least once whose count can still grow, returns and leaves the
    factory and the whole world exactly as they were. *)
Theorem AddRef_then_Release cfg C f w p o :
  messages w !! p = Some o →
  1 ≤ Message.GetRefCount (message_of o) < INT_MAX →
  run cfg C [DoAddRef (Some p); DoRelease (Some p)] (f, w) = Ok (f, w).
Proof.
  unfold Message.GetRefCount. intros Ho [Hone Hmax].
  rewrite run_cons.
  change (step cfg C (DoAddRef (Some p)) (f, w))
    with (MessageFactory.AddRef cfg (Some p) (f, w)).
  rewrite (AddRef_live cfg f w p o Ho).
  replace (Message.m_refCount (message_of o) <? INT_MAX) with true
    by (symmetry; lia).
  rewrite bind_Ok, run_cons.
  change (step cfg C (DoRelease (Some p)) ?s)
    with (MessageFactory.Release cfg (Some p) s).
  erewrite Release_shared;
    [| simpl; apply lookup_insert_eq | rewrite message_of_update; simpl; lia].
  rewrite bind_Ok. cbn [run]. f_equal. f_equal. simpl. unfold released.
  rewrite message_of_update. simpl.
  replace (Message.m_refCount (message_of o) + 1 - 1 =? 0) with false
    by (symmetry; lia).
  rewrite update_message_update, insert_insert_eq.
  replace (Message.m_refCount (message_of o) + 1 - 1)
    with (Message.m_refCount (message_of o)) by lia.
  rewrite set_refCount_twice, set_refCount_id, update_message_id.
  rewrite insert_id by done. by destruct w.
Qed.

Lemma AddRef_then_Release_witness :
  let C := BaseFactory in
  let f := MessageFactory.ctor 1 3 in
  let o := PlainObject (Message.SetType 2 (Message.ctor 0)) in
  let w := {| messages := {[ 5%positive := o ]};
              answers := [Some 6%positive];
              calls := [CallAllocate 1 (Some 5%positive)] |} in
  messages w !! 5%positive = Some o
  ∧ 1 ≤ Message.GetRefCount (message_of o) < INT_MAX
  ∧ run release_build C [DoAddRef (Some 5%positive);
                         DoRelease (Some 5%positive)] (f, w) = Ok (f, w).
Proof.
  intros C f o w.
  assert (messages w !! 5%positive = Some o) as Ho by reflexivity.
  assert (1 ≤ Message.GetRefCount (message_of o) < INT_MAX) as Hcount
    by (by vm_compute).
  split; [done |]. split; [done |].
  exact (AddRef_then_Release release_build C f w 5%positive o Ho Hcount).
Defined.

(** X9: the Release that drops the last reference.  It returns; the
    message leaves the store; the destructor frees the attached block, if
    there is one, through the allocator AttachBlock recorded, and then the
    memory of the message goes back through the allocator of the factory;
    no other call is made, no answer of the allocator is used, and the
    leak audit, where it is built in, forgets the message. *)
Theorem last_Release_frees cfg f w p o a :
  messages w !! p = Some o →
  Message.GetRefCount (message_of o) = 1 →
  MessageFactory.m_allocator f = Some a →
  (YOJIMBO_DEBUG_MESSAGE_LEAKS cfg = true →
   is_Some (MessageFactory.allocated_messages f !! p)) →
  MessageFactory.Release cfg (Some p) (f, w)
  = Ok (if YOJIMBO_DEBUG_MESSAGE_LEAKS cfg
        then MessageFactory.set_allocated_messages
               (delete p (MessageFactory.allocated_messages f)) f
        else f,
        {| messages := delete p (messages w);
           answers := answers w;
           calls := CallFree a p :: block_frees o ++ calls w |}).
Proof.
  unfold Message.GetRefCount. intros Ho Hone Ha Haudit.
  destruct (Release_last cfg f w p o Ho Hone) as (f1 & w1 & Hrel);
    [by exists a | done |].
  rewrite Hrel.
  apply Release_effect in Hrel as (o0 & Ho0 & Hstore & Hanswers & Hlast).
  assert (o0 = o) as -> by congruence.
  unfold released in Hstore. rewrite Hone in Hstore, Hlast. simpl in *.
  destruct Hlast as [(a0 & Ha0 & Hcalls) ->].
  assert (a0 = a) as -> by congruence.
  destruct w1 as [h1 an1 cs1]. simpl in *. by subst.
Qed.

Lemma last_Release_frees_witness :
  let f := MessageFactory.set_allocated_messages {[ 5%positive := 1 ]}
             (MessageFactory.ctor 1 3) in
  let o := BlockObject
             {| BlockMessage.base := Message.ctor 1;
                BlockMessage.m_allocator := Some 2%positive;
                BlockMessage.m_blockData := Some 9%positive;
                BlockMessage.m_blockSize := 64 |} in
  let w := {| messages := {[ 5%positive := o ]};
              answers := [Some 6%positive];
              calls := [] |} in
  messages w !! 5%positive = Some o
  ∧ Message.GetRefCount (message_of o) = 1
  ∧ MessageFactory.Release debug_build (Some 5%positive) (f, w)
    = Ok (MessageFactory.set_allocated_messages
            (delete 5%positive {[ 5%positive := 1 ]}) f,
          {| messages := delete 5%positive (messages w);
             answers := [Some 6%positive];
             calls := [CallFree 1 5; CallFree 2 9] |}).
Proof.
  intros f o w.
  assert (messages w !! 5%positive = Some o) as Ho by reflexivity.
  split_and!; [done | done |].
  apply (last_Release_frees debug_build f w 5%positive o 1%positive Ho);
    [done | done |].
  intros _. by exists 1.
Defined.

(** X10: with the leak audit and assertions built in, handing the last
    reference of a message to a factory whose audit does not know it (a
    message of another factory) stops at the audit assertion of Release. *)
Theorem Release_of_foreign_message cfg f w p o :
  YOJIMBO_DEBUG_MESSAGE_LEAKS cfg = true →
  assertions cfg = true →
  messages w !! p = Some o →
  Message.GetRefCount (message_of o) = 1 →
  MessageFactory.allocated_messages f !! p = None →
  MessageFactory.Release cfg (Some p) (f, w) = AssertionFailed.
Proof.
  unfold Message.GetRefCount. intros Hleaks Hassert Ho Hone Hforeign.
  unfold MessageFactory.Release.
  rewrite (bool_decide_true (is_Some (Some p))) by eauto.
  rewrite assert_true. simpl. unfold invoke. rewrite Ho.
  rewrite Release_positive by lia. simpl.
  unfold MessageFactory.refCount_at. simpl.
  rewrite lookup_insert_eq, message_of_update. simpl.
  rewrite Hone, Hleaks, Hforeign. simpl.
  unfold assert_. by rewrite Hassert.
Qed.

Lemma Release_of_foreign_message_witness :
  let f := MessageFactory.ctor 1 3 in
  let o := PlainObject (Message.ctor 0) in
  let w := {| messages := {[ 5%positive := o ]}; answers := []; calls := [] |} in
  messages w !! 5%positive = Some o
  ∧ MessageFactory.allocated_messages f !! 5%positive = None
  ∧ MessageFactory.Release debug_build (Some 5%positive) (f, w)
    = AssertionFailed.
Proof.
  intros f o w.
  assert (messages w !! 5%positive = Some o) as Ho by reflexivity.
  assert (MessageFactory.allocated_messages f !! 5%positive = None)
    as Hforeign by reflexivity.
  split_and!; [done | done |].
  exact (Release_of_foreign_message debug_build f w 5%positive o
           eq_refl eq_refl Ho eq_refl Hforeign).
Defined.

(** ** Attached blocks *)

Lemma attached_block_well_formed cfg g b :
  assertions cfg = true →
  BlockState cfg g b →
  match g with
  | None => True
  | Some (a, d, s) => is_Some d ∧ 0 < s
  end.
Proof.
  intros Hassert Hb.
  induction Hb as [ | | | | | g b a d s b1 _ _ Hcall | ]; try done.
  unfold BlockMessage.AttachBlock, assert_ in Hcall. rewrite Hassert in Hcall.
  destruct d as [d |]; [| done]. simpl in Hcall.
  destruct (Z.ltb_spec 0 s); [| done]. split; [eauto | done].
Qed.

(** X11: built with assertions, the three block fields of a BlockMessage
    agree at every point of its life: an attached block has non-null data
    and a positive size, so the data pointer is null exactly when the
    allocator pointer is, and exactly when the size is 0. *)
Theorem block_fields_agree cfg g b :
  assertions cfg = true →
  BlockState cfg g b →
  match g with
  | None => True
  | Some (a, d, s) => is_Some d ∧ 0 < s
  end
  ∧ (is_Some (BlockMessage.GetBlockData b)
     ↔ is_Some (BlockMessage.GetAllocator b))
  ∧ (is_Some (BlockMessage.GetBlockData b) ↔ 0 < BlockMessage.GetBlockSize b)
  ∧ (BlockMessage.GetBlockData b = NULL ↔ BlockMessage.GetBlockSize b = 0).
Proof.
  intros Hassert Hb.
  pose proof (attached_block_well_formed cfg g b Hassert Hb) as Hg.
  split; [done |].
  apply BlockState_fields in Hb as [_ Htriple].
  unfold BlockMessage.GetBlockData, BlockMessage.GetAllocator,
    BlockMessage.GetBlockSize.
  destruct g as [[[a d] s] |]; injection Htriple as -> -> ->.
  - destruct Hg as [[d0 ->] Hs]. split_and!; split; eauto; try done; lia.
  - split_and!; split; try done; try lia; by intros [? ?].
Qed.

Lemma block_fields_agree_witness :
  let b := {| BlockMessage.base := Message.ctor 1;
              BlockMessage.m_allocator := Some 2%positive;
              BlockMessage.m_blockData := Some 9%positive;
              BlockMessage.m_blockSize := 64 |} in
  BlockState debug_build (Some (2%positive, Some 9%positive, 64)) b
  ∧ (is_Some (BlockMessage.GetBlockData b)
     ↔ is_Some (BlockMessage.GetAllocator b))
  ∧ (is_Some (BlockMessage.GetBlockData b) ↔ 0 < BlockMessage.GetBlockSize b)
  ∧ (BlockMessage.GetBlockData b = NULL ↔ BlockMessage.GetBlockSize b = 0).
Proof.
  intros b.
  assert (BlockState debug_build (Some (2%positive, Some 9%positive, 64)) b)
    as Hb.
  { apply BS_AttachBlock with (g := None) (b := BlockMessage.ctor);
      [apply BS_ctor | reflexivity]. }
  split; [exact Hb |].
  exact (proj2 (block_fields_agree debug_build _ b eq_refl Hb)).
Defined.

(** X12: built with assertions, AttachBlock returns exactly when the data
    pointer is not null, the size is positive and no block is attached;
    it then records the three arguments and leaves the rest of the message
    alone.  In every other case, a second block among them, it stops at
    an assertion. *)
Theorem AttachBlock_contract cfg g b a d s :
  assertions cfg = true →
  BlockState cfg g b →
  (is_Some d → 0 < s → g = None →
   BlockMessage.AttachBlock cfg a d s b
   = Ok {| BlockMessage.base := BlockMessage.base b;
           BlockMessage.m_allocator := Some a;
           BlockMessage.m_blockData := d;
           BlockMessage.m_blockSize := s |})
  ∧ (¬ (is_Some d ∧ 0 < s ∧ g = None) →
     BlockMessage.AttachBlock cfg a d s b = AssertionFailed).
Proof.
  intros Hassert Hb.
  pose proof (attached_block_well_formed cfg g b Hassert Hb) as Hg.
  apply BlockState_fields in Hb as [_ Htriple].
  split.
  - intros [d0 ->] Hs ->. injection Htriple as _ Hdata _.
    by apply AttachBlock_Ok.
  - intros Hnot. unfold BlockMessage.AttachBlock, assert_. rewrite Hassert.
    destruct d as [d0 |]; [| done]. simpl.
    destruct (Z.ltb_spec 0 s) as [Hs | Hs]; [| done]. simpl.
    destruct g as [[[a1 d1] s1] |].
    + injection Htriple as _ -> _. by destruct Hg as [[d2 ->] _].
    + destruct Hnot. eauto.
Qed.

Lemma AttachBlock_contract_witness :
  let b := {| BlockMessage.base := Message.ctor 1;
              BlockMessage.m_allocator := Some 2%positive;
              BlockMessage.m_blockData := Some 9%positive;
              BlockMessage.m_blockSize := 64 |} in
  BlockState debug_build (Some (2%positive, Some 9%positive, 64)) b
  ∧ BlockMessage.AttachBlock debug_build 3 (Some 10%positive) 16 b
    = AssertionFailed
  ∧ BlockMessage.AttachBlock debug_build 3 (Some 10%positive) 0
      BlockMessage.ctor = AssertionFailed
  ∧ BlockMessage.AttachBlock debug_build 3 NULL 16 BlockMessage.ctor
    = AssertionFailed.
Proof.
  intros b.
  assert (BlockState debug_build (Some (2%positive, Some 9%positive, 64)) b)
    as Hb.
  { apply BS_AttachBlock with (g := None) (b := BlockMessage.ctor);
      [apply BS_ctor | reflexivity]. }
  split; [exact Hb |]. split_and!.
  - apply (AttachBlock_contract debug_build _ b 3%positive
             (Some 10%positive) 16 eq_refl Hb).
    by intros (_ & _ & ?).
  - apply (AttachBlock_contract debug_build None BlockMessage.ctor 3%positive
             (Some 10%positive) 0 eq_refl (BS_ctor debug_build)).
    intros (_ & ? & _). lia.
  - apply (AttachBlock_contract debug_build None BlockMessage.ctor 3%positive
             NULL 16 eq_refl (BS_ctor debug_build)).
    by intros ([? ?] & _).
Defined.

(** ** What a factory keeps *)

Lemma step_factory_constants cfg C c f w f1 w1 :
  step cfg C c (f, w) = Ok (f1, w1) →
  MessageFactory.m_numTypes f1 = MessageFactory.m_numTypes f
  ∧ MessageFactory.m_allocator f1 = MessageFactory.m_allocator f.
Proof.
  intros Hstep. destruct c as [type | message | [p |] |].
  - simpl in Hstep. bind_inv Hstep as [r [f2 w2]] Hcreate.
    simpl in Hstep. injection Hstep as <- <-.
    by apply Create_inv in Hcreate as (_ & ? & ? & _).
  - by apply (AddRef_inv cfg message) in Hstep as [-> _].
  - apply Release_effect in Hstep as (o & _ & _ & _ & Hlast).
    destruct (Message.m_refCount (message_of o) =? 1).
    + destruct Hlast as [_ ->]. by destruct (YOJIMBO_DEBUG_MESSAGE_LEAKS cfg).
    + by destruct Hlast as [_ ->].
  - by apply (Release_inv cfg None) in Hstep as (_ & _ & _ & ->).
  - simpl in Hstep. by injection Hstep as <- <-.
Qed.

(** X13: the type space and the allocator of a factory are fixed at
    construction.  After any sequence of calls on a factory made by
    MessageFactory( allocator, numTypes ), GetNumTypes() is numTypes and
    GetAllocator() returns that allocator, in every build. *)
Theorem factory_keeps_its_parameters cfg C cs allocator numTypes w f1 w1 :
  run cfg C cs (MessageFactory.ctor allocator numTypes, w) = Ok (f1, w1) →
  MessageFactory.GetNumTypes f1 = numTypes
  ∧ MessageFactory.GetAllocator cfg f1 = Ok allocator.
Proof.
  intros Hrun.
  assert (MessageFactory.m_numTypes f1 = numTypes
          ∧ MessageFactory.m_allocator f1 = Some allocator) as [Hn Ha].
  { change numTypes with
      (MessageFactory.m_numTypes (MessageFactory.ctor allocator numTypes)).
    change (Some allocator) with
      (MessageFactory.m_allocator (MessageFactory.ctor allocator numTypes)).
    revert Hrun. generalize (MessageFactory.ctor allocator numTypes).
    revert w. induction cs as [| c rest IH]; intros w f Hrun.
    - simpl in Hrun. by simplify_eq.
    - rewrite run_cons in Hrun. bind_inv Hrun as [f2 w2] Hstep.
      apply step_factory_constants in Hstep as [<- <-]. by eapply IH. }
  split; [done |]. unfold MessageFactory.GetAllocator. rewrite Ha.
  rewrite (bool_decide_true (is_Some (Some allocator))) by eauto.
  by rewrite assert_true.
Qed.

Lemma factory_keeps_its_parameters_witness :
  let C := MacroFactory BaseFactory [(0, DerivedFromMessage)] in
  let w := {| messages := ∅; answers := [Some 5%positive]; calls := [] |} in
  let cs := [DoCreate 1; DoCreate 0; DoClearError;
             DoRelease (Some 5%positive)] in
  ∃ f1 w1,
    run debug_build C cs (MessageFactory.ctor 4 2, w) = Ok (f1, w1)
    ∧ MessageFactory.GetNumTypes f1 = 2
    ∧ MessageFactory.GetAllocator debug_build f1 = Ok 4%positive.
Proof.
  intros C w cs.
  destruct (run debug_build C cs (MessageFactory.ctor 4 2, w))
    as [[f1 w1] | |] eqn:Hrun; [| by vm_compute in Hrun..].
  exists f1, w1. split; [done |].
  exact (factory_keeps_its_parameters debug_build C cs 4%positive 2 w f1 w1
           Hrun).
Defined.

(** ** Out of memory *)

Lemma CreateInternal_no_memory cfg C f type w r w1 :
  Forall (fun answer => answer = NULL) (answers w) →
  MessageFactory.CreateInternal cfg C f type w = Ok (r, w1) →
  r = NULL ∧ Forall (fun answer => answer = NULL) (answers w1).
Proof.
  revert w r w1. induction C as [| B IH cases]; intros w r w1 Hnone; simpl.
  - by intros [= <- <-].
  - intros H. bind_inv H as [r0 w0] Hbase.
    apply IH in Hbase as [-> Hnone0]; [| done].
    bind_inv H as a _.
    destruct (switch type cases) as [[mt mc] |]; [| by simplify_eq].
    unfold YOJIMBO_NEW, Allocate in H.
    destruct (answers w0) as [| answer rest] eqn:Hanswers; simpl in H.
    + injection H as <- <-. simpl. by rewrite Hanswers.
    + apply Forall_cons in Hnone0 as [-> Hrest]. simpl in H.
      by injection H as <- <-.
Qed.

(** X14: when the allocator has no memory left (every answer it still has
    is null), Create on a live factory, for every type in [0, numTypes),
    returns null with the error level at FAILED_TO_ALLOCATE_MESSAGE, and
    the message store and the leak audit are as before. *)
Theorem Create_without_memory cfg C f w type :
  MessageFactory.constructed f →
  0 ≤ type < MessageFactory.GetNumTypes f →
  Forall (fun answer => answer = NULL) (answers w) →
  ∃ f1 w1,
    MessageFactory.Create cfg C type (f, w) = Ok (NULL, (f1, w1))
    ∧ MessageFactory.GetError f1
      = MESSAGE_FACTORY_ERROR_FAILED_TO_ALLOCATE_MESSAGE
    ∧ messages w1 = messages w
    ∧ MessageFactory.allocated_messages f1
      = MessageFactory.allocated_messages f.
Proof.
  intros Hf Htype Hnone.
  destruct (Create_constructed cfg C f w type Hf Htype)
    as (r & f1 & w1 & Hcreate).
  assert (r = NULL) as ->.
  { unfold MessageFactory.Create in Hcreate.
    bind_inv Hcreate as [] _. bind_inv Hcreate as [] _.
    bind_inv Hcreate as [r0 w0] Hint.
    apply CreateInternal_no_memory in Hint as [-> _]; [| done].
    by injection Hcreate as <- _ _. }
  exists f1, w1. split; [done |].
  pose proof (Create_inv _ _ _ _ _ _ _ _ Hcreate) as (_ & _ & _ & Herr).
  apply Create_store in Hcreate as [Hstore Haudit].
  done.
Qed.

Lemma Create_without_memory_witness :
  let C := MacroFactory
             (MacroFactory BaseFactory [(0, DerivedFromBlockMessage)])
             [(0, DerivedFromMessage)] in
  let f := MessageFactory.ctor 1 1 in
  let w := {| messages := {[ 5%positive := PlainObject (Message.ctor 0) ]};
              answers := [NULL];
              calls := [] |} in
  MessageFactory.constructed f
  ∧ Forall (fun answer => answer = NULL) (answers w)
  ∧ ∃ f1 w1,
      MessageFactory.Create debug_build C 0 (f, w) = Ok (NULL, (f1, w1))
      ∧ MessageFactory.GetError f1
        = MESSAGE_FACTORY_ERROR_FAILED_TO_ALLOCATE_MESSAGE
      ∧ messages w1 = messages w
      ∧ MessageFactory.allocated_messages f1
        = MessageFactory.allocated_messages f.
Proof.
  intros C f w.
  assert (MessageFactory.constructed f) as Hf by (by exists 1%positive).
  assert (0 ≤ 0 < MessageFactory.GetNumTypes f) as Htype by (simpl; lia).
  assert (Forall (fun answer : option positive => answer = NULL) (answers w))
    as Hnone by (by repeat constructor).
  split; [done |]. split; [done |].
  exact (Create_without_memory debug_build C f w 0 Hf Htype Hnone).
Defined.

(** ** The type field *)

Lemma Create_type_field_witness :
  let C := MacroFactory BaseFactory [(40000, DerivedFromMessage)] in
  let f := MessageFactory.ctor 1 40001 in
  let w := {| messages := ∅; answers := [Some 7%positive]; calls := [] |} in
  ∃ f1 w1,
    MessageFactory.Create release_build C 40000 (f, w)
    = Ok (Some 7%positive, (f1, w1))
    ∧ ∃ o, messages w1 !! 7%positive = Some o
           ∧ Message.GetType (message_of o) = 40000 mod 32768.
Proof.
  intros C f w.
  destruct (MessageFactory.Create release_build C 40000 (f, w))
    as [[[p |] [f1 w1]] | |] eqn:Hcreate; try (by vm_compute in Hcreate).
  assert (p = 7%positive) as ->
    by (vm_compute in Hcreate; by injection Hcreate as <- _ _).
  exists f1, w1. split; [done |].
  exact (Create_type_field release_build C 40000 f w 7%positive f1 w1 Hcreate).
Defined.

(** ** Where the error level comes from *)

(** X15: the error level changes only in two ways: a Create that returns
    null raises it to FAILED_TO_ALLOCATE_MESSAGE, and ClearError puts it
    to NONE.  A Create that returns a message, AddRef and Release leave
    it as it is. *)
Theorem error_level_changes_only_by cfg C c f w f1 w1 :
  step cfg C c (f, w) = Ok (f1, w1) →
  MessageFactory.GetError f1 ≠ MessageFactory.GetError f →
  (c = DoClearError
   ∧ MessageFactory.GetError f1 = MESSAGE_FACTORY_ERROR_NONE)
  ∨ (∃ type,
       c = DoCreate type
       ∧ MessageFactory.Create cfg C type (f, w) = Ok (NULL, (f1, w1))
       ∧ MessageFactory.GetError f1
         = MESSAGE_FACTORY_ERROR_FAILED_TO_ALLOCATE_MESSAGE).
Proof.
  unfold MessageFactory.GetError. intros Hstep Hchanged.
  destruct c as [type | message | message |].
  - right. exists type. split; [done |].
    simpl in Hstep. bind_inv Hstep as [r [f2 w2]] Hcreate.
    simpl in Hstep. injection Hstep as <- <-.
    pose proof (Create_inv _ _ _ _ _ _ _ _ Hcreate) as (_ & _ & _ & Herr).
    destruct r as [p |]; [congruence | done].
  - apply (AddRef_inv cfg message) in Hstep as [-> _]. done.
  - apply (Release_inv cfg message) in Hstep as (Herr & _). done.
  - left. simpl in Hstep. by injection Hstep as <- <-.
Qed.

Lemma error_level_changes_only_by_witness :
  let C := MacroFactory BaseFactory [(0, DerivedFromMessage)] in
  let f := MessageFactory.ctor 1 1 in
  let w := {| messages := ∅; answers := [NULL]; calls := [] |} in
  let f1 := MessageFactory.set_error
              MESSAGE_FACTORY_ERROR_FAILED_TO_ALLOCATE_MESSAGE f in
  let w1 := {| messages := ∅; answers := []; calls := [CallAllocate 1 NULL] |} in
  step debug_build C (DoCreate 0) (f, w) = Ok (f1, w1)
  ∧ MessageFactory.GetError f1 ≠ MessageFactory.GetError f
  ∧ ((DoCreate 0 = DoClearError
      ∧ MessageFactory.GetError f1 = MESSAGE_FACTORY_ERROR_NONE)
     ∨ (∃ type,
          DoCreate 0 = DoCreate type
          ∧ MessageFactory.Create debug_build C type (f, w)
            = Ok (NULL, (f1, w1))
          ∧ MessageFactory.GetError f1
            = MESSAGE_FACTORY_ERROR_FAILED_TO_ALLOCATE_MESSAGE)).
Proof.
  intros C f w f1 w1.
  assert (step debug_build C (DoCreate 0) (f, w) = Ok (f1, w1)) as Hstep
    by (by vm_compute).
  assert (MessageFactory.GetError f1 ≠ MessageFactory.GetError f) as Hchanged
    by (by vm_compute).
  split; [done |]. split; [done |].
  exact (error_level_changes_only_by debug_build C (DoCreate 0) f w f1 w1
           Hstep Hchanged).
Defined.

(** ** Ownership of a detached block *)

(** X16: DetachBlock hands the block over for good.  On a block message
    held once, DetachBlock followed by the Release of the last reference
    destroys the message and makes one call on an allocator: the Free of
    the message itself on the allocator of the factory.  The block that
    was attached is not freed by the factory. *)
Theorem detached_block_is_not_freed cfg f w p b a :
  messages w !! p = Some (BlockObject b) →
  BlockMessage.GetRefCount b = 1 →
  MessageFactory.m_allocator f = Some a →
  (YOJIMBO_DEBUG_MESSAGE_LEAKS cfg = true →
   is_Some (MessageFactory.allocated_messages f !! p)) →
  ∃ w1 f2,
    invoke_block p (fun x => Ok (BlockMessage.DetachBlock x)) w = Ok w1
    ∧ MessageFactory.Release cfg (Some p) (f, w1)
      = Ok (f2, {| messages := delete p (messages w);
                   answers := answers w;
                   calls := CallFree a p :: calls w |}).
Proof.
  intros Hp Hone Ha Haudit.
  set (w1 := set_messages
               (<[p := BlockObject (BlockMessage.DetachBlock b)]> (messages w))
               w).
  assert (messages w1 !! p = Some (BlockObject (BlockMessage.DetachBlock b)))
    as Hp1 by apply lookup_insert_eq.
  destruct (Release_last cfg f w1 p _ Hp1 Hone) as (f2 & w2 & Hrel);
    [by exists a | done |].
  exists w1, f2. split; [by apply (invoke_block_Ok p b) |]. rewrite Hrel.
  apply Release_effect in Hrel as (o0 & Ho0 & Hstore & Hanswers & Hlast).
  assert (o0 = BlockObject (BlockMessage.DetachBlock b)) as -> by congruence.
  unfold released in Hstore. simpl in Hstore, Hlast.
  unfold BlockMessage.GetRefCount, Message.GetRefCount in Hone.
  rewrite Hone in Hstore, Hlast. simpl in Hstore, Hlast.
  destruct Hlast as [(a0 & Ha0 & Hcalls) _].
  assert (a0 = a) as -> by congruence.
  rewrite delete_insert_eq in Hstore.
  destruct w2 as [h2 an2 cs2]. simpl in *. by subst.
Qed.

Lemma detached_block_is_not_freed_witness :
  let f := MessageFactory.set_allocated_messages {[ 5%positive := 1 ]}
             (MessageFactory.ctor 1 3) in
  let b := {| BlockMessage.base := Message.ctor 1;
              BlockMessage.m_allocator := Some 2%positive;
              BlockMessage.m_blockData := Some 9%positive;
              BlockMessage.m_blockSize := 64 |} in
  let w := {| messages := {[ 5%positive := BlockObject b ]};
              answers := [];
              calls := [] |} in
  messages w !! 5%positive = Some (BlockObject b)
  ∧ BlockMessage.GetRefCount b = 1
  ∧ ∃ w1 f2,
      invoke_block 5 (fun x => Ok (BlockMessage.DetachBlock x)) w = Ok w1
      ∧ MessageFactory.Release debug_build (Some 5%positive) (f, w1)
        = Ok (f2, {| messages := delete 5%positive (messages w);
                     answers := answers w;
                     calls := CallFree 1 5 :: calls w |}).
Proof.
  intros f b w.
  assert (messages w !! 5%positive = Some (BlockObject b)) as Hp by reflexivity.
  split; [done |]. split; [done |].
  apply (detached_block_is_not_freed debug_build f w 5%positive b 1%positive
           Hp); [done | done |].
  intros _. by exists 1.
Defined.

(** ** Creating a declared type *)

Lemma switch_declared type cases c :
  snd <$> switch type cases = Some c → switch type cases = Some (type, c).
Proof.
  destruct (switch type cases) as [[mt mc] |] eqn:Hsw; [| done].
  apply switch_Some in Hsw as ->. simpl. congruence.
Qed.

Lemma CreateInternal_declared cfg C f a type c w p rest :
  MessageFactory.m_allocator f = Some a →
  declared C type = Some c →
  answers w = Some p :: rest →
  MessageFactory.CreateInternal cfg C f type w
  = Ok (Some p,
        {| messages := <[p := created_object c type]> (messages w);
           answers := rest;
           calls := CallAllocate a (Some p) :: calls w |}).
Proof.
  intros Ha. induction C as [| B IH cases]; simpl; [done |].
  destruct (declared B type) as [c0 |] eqn:Hbase.
  - intros [= ->] Hanswers. by rewrite IH.
  - intros Hsw%switch_declared Hanswers.
    rewrite CreateInternal_undeclared by (by exists a || done).
    simpl. unfold MessageFactory.GetAllocator. rewrite Ha.
    rewrite (bool_decide_true (is_Some (Some a))) by eauto.
    rewrite assert_true. simpl. rewrite Hsw.
    unfold YOJIMBO_NEW, Allocate. rewrite Hanswers. simpl.
    unfold MessageFactory.SetMessageType, invoke. simpl.
    rewrite lookup_insert_eq. simpl. by rewrite insert_insert_eq.
Qed.

(** X17: creating a declared type when the allocator has memory.  On a
    live factory, for a type in [0, numTypes) that the class of the
    factory or one of its base classes declares (the innermost base class
    that declares it decides the message class), when the next answer of
    the allocator is an address, Create makes exactly one call, the
    Allocate that gets this address, returns it, and leaves there a
    default constructed object of the declared class with the type set;
    the error level is not touched. *)
Theorem Create_declared_type cfg C f a type c w p rest :
  MessageFactory.m_allocator f = Some a →
  0 ≤ type < MessageFactory.GetNumTypes f →
  declared C type = Some c →
  answers w = Some p :: rest →
  ∃ f1,
    MessageFactory.Create cfg C type (f, w)
    = Ok (Some p,
          (f1, {| messages := <[p := created_object c type]> (messages w);
                  answers := rest;
                  calls := CallAllocate a (Some p) :: calls w |}))
    ∧ MessageFactory.GetError f1 = MessageFactory.GetError f
    ∧ f1 = (if YOJIMBO_DEBUG_MESSAGE_LEAKS cfg
            then MessageFactory.set_allocated_messages
                   (<[p := 1]> (MessageFactory.allocated_messages f)) f
            else f).
Proof.
  intros Ha Htype Hdeclared Hanswers.
  unfold MessageFactory.Create, MessageFactory.GetNumTypes in *.
  destruct (asserts_in_range cfg _ _ Htype) as [-> ->]. simpl.
  rewrite (CreateInternal_declared cfg C f a type c w p rest) by done.
  simpl. destruct (YOJIMBO_DEBUG_MESSAGE_LEAKS cfg); [| eauto].
  simpl. rewrite lookup_insert_eq.
  rewrite (bool_decide_true (is_Some (Some 1))) by eauto.
  rewrite assert_true. simpl. eauto.
Qed.

Lemma Create_declared_type_witness :
  let C := MacroFactory
             (MacroFactory BaseFactory [(0, DerivedFromBlockMessage)])
             [(0, DerivedFromMessage); (1, DerivedFromMessage)] in
  let f := MessageFactory.ctor 1 2 in
  let w := {| messages := ∅; answers := [Some 7%positive]; calls := [] |} in
  declared C 0 = Some DerivedFromBlockMessage
  ∧ ∃ f1,
      MessageFactory.Create release_build C 0 (f, w)
      = Ok (Some 7%positive,
            (f1, {| messages :=
                      <[7%positive := created_object DerivedFromBlockMessage 0]>
                        (messages w);
                    answers := [];
                    calls := CallAllocate 1 (Some 7%positive) :: calls w |}))
      ∧ MessageFactory.GetError f1 = MessageFactory.GetError f
      ∧ f1 = f.
Proof.
  intros C f w.
  assert (declared C 0 = Some DerivedFromBlockMessage) as Hdeclared
    by reflexivity.
  assert (0 ≤ 0 < MessageFactory.GetNumTypes f) as Htype by (simpl; lia).
  split; [done |].
  exact (Create_declared_type release_build C f 1%positive 0
           DerivedFromBlockMessage w 7%positive [] eq_refl Htype Hdeclared
           eq_refl).
Defined.
